(** * Ice breaker pipeline: a shallow embedding in Rocq

    The repository (src/ice_breaker) chains three steps:
    - a ReAct agent that turns a name into a LinkedIn URL
      (agents/linkedin_lookup_agent.py, [lookup]);
    - a scraper that fetches and cleans a profile document
      (linkedin.py, [scrape_linkedin_profile]);
    - a prompt, LLM and Pydantic output parser chain
      (ice_breaker.py, [ice_break_with]; output_parsers.py,
      [summary_output_parser]).

    The code of the repository leans on library code (requests, json,
    langchain_core, langchain's AgentExecutor, pydantic). The parts of it
    that decide the behaviour of the repository's functions are embedded
    below after their Python sources, and the network services
    (OpenAI, Tavily, Scrapin.io, the Gist fixture) are parameters of an
    environment record. *)

From Stdlib Require Import Bool Ascii String List ZArith NArith Lia.
From Stdlib Require Import DecimalString.
Import ListNotations.
Open Scope string_scope.
Open Scope list_scope.
Set Warnings "-register-all".

(** ** Characters and Python string helpers *)

Definition dquote : ascii := ascii_of_nat 34.
Definition backslash : ascii := ascii_of_nat 92.
Definition ch_tab : ascii := ascii_of_nat 9.
Definition ch_nl : ascii := ascii_of_nat 10.
Definition ch_cr : ascii := ascii_of_nat 13.
Definition ch_backtick : ascii := ascii_of_nat 96.

(** A one-character string holding a double quote. *)
Definition q : string := String dquote EmptyString.

(** [qt s] replaces every [~] of [s] by a double quote; it lets literal
    JSON texts be written below without escaped quotes. *)
Fixpoint qt (s : string) : string :=
  match s with
  | EmptyString => EmptyString
  | String c r =>
      String (if Ascii.eqb c "~"%char then dquote else c) (qt r)
  end.

(** Whitespace of Python's [json] module ([_ws = ' \t\n\r']). *)
Definition is_json_ws (c : ascii) : bool :=
  Ascii.eqb c " "%char || Ascii.eqb c ch_tab || Ascii.eqb c ch_nl
  || Ascii.eqb c ch_cr.

Fixpoint drop_while (p : ascii -> bool) (s : list ascii) : list ascii :=
  match s with
  | [] => []
  | c :: r => if p c then drop_while p r else s
  end.

(** [s.strip(chars)] where [p] decides membership in [chars]. *)
Definition py_strip_by (p : ascii -> bool) (s : string) : string :=
  string_of_list_ascii
    (rev (drop_while p (rev (drop_while p (list_ascii_of_string s))))).

(** [_json_strip_chars = " \n\r\t`"] of langchain_core.utils.json *)
Definition is_json_strip_char (c : ascii) : bool :=
  Ascii.eqb c " "%char || Ascii.eqb c ch_nl || Ascii.eqb c ch_cr
  || Ascii.eqb c ch_tab || Ascii.eqb c ch_backtick.

Fixpoint skip_ws (s : list ascii) : list ascii :=
  match s with
  | [] => []
  | c :: r => if is_json_ws c then skip_ws r else s
  end.

Fixpoint starts_with (p s : list ascii) : bool :=
  match p, s with
  | [], _ => true
  | c :: p', d :: s' => Ascii.eqb c d && starts_with p' s'
  | _ :: _, [] => false
  end.

(** ** JSON values as Python's [json] module builds them

    [JObj] is a Python dict: keys are unique and kept in insertion order.
    Integers are Python ints; a float is kept as its JSON lexeme
    (NaN, Infinity and -Infinity included), and [float_of_lexeme] below
    gives its binary64 value. *)
Inductive json : Type :=
| JNull
| JBool (b : bool)
| JInt (z : Z)
| JFloat (lexeme : string)
| JStr (s : string)
| JArr (xs : list json)
| JObj (kvs : list (string * json)).

(** [d[k] = v] on a dict: overwrite in place, or append a new key. *)
Fixpoint dict_set (d : list (string * json)) (k : string) (v : json)
  : list (string * json) :=
  match d with
  | [] => [(k, v)]
  | (k', v') :: r =>
      if String.eqb k k' then (k, v) :: r else (k', v') :: dict_set r k v
  end.

(** [d.get(k)] on a dict. *)
Fixpoint dict_get (d : list (string * json)) (k : string) : option json :=
  match d with
  | [] => None
  | (k', v) :: r => if String.eqb k k' then Some v else dict_get r k
  end.

(** ** [json.loads]: Python's JSON decoder (json/decoder.py, json/scanner.py)

    [strict] is the decoder's [strict] flag: when it is set a raw control
    character (code below 32) inside a string is an error. *)

Definition is_digit (c : ascii) : bool :=
  let n := nat_of_ascii c in ((48 <=? n) && (n <=? 57))%nat.

Definition digit_val (c : ascii) : Z := Z.of_nat (nat_of_ascii c - 48).

Fixpoint span_digits (s : list ascii) : list ascii * list ascii :=
  match s with
  | c :: r =>
      if is_digit c then let '(ds, r') := span_digits r in (c :: ds, r')
      else ([], s)
  | [] => ([], [])
  end.

Definition digits_value (ds : list ascii) : Z :=
  fold_left (fun acc d => acc * 10 + digit_val d)%Z ds 0%Z.

(** [NUMBER_RE] of json/scanner.py: an optional minus sign, then [0] or a
    nonzero digit and more digits, then optionally a dot and at least one
    digit, then optionally [e] or [E], an optional sign and at least one
    digit. Without a fraction or an exponent the lexeme is an int,
    otherwise a float. *)
Definition parse_number (s : list ascii) : option (json * list ascii) :=
  let '(neg, s1) :=
    match s with
    | c :: r => if Ascii.eqb c "-"%char then (true, r) else (false, s)
    | [] => (false, s)
    end in
  let int_part :=
    match s1 with
    | c :: r =>
        if Ascii.eqb c "0"%char then Some ([c], r)
        else if is_digit c then let '(ds, r') := span_digits r in
                                Some (c :: ds, r')
        else None
    | [] => None
    end in
  match int_part with
  | None => None
  | Some (ids, r1) =>
      let '(frac, r2) :=
        match r1 with
        | c :: d :: r =>
            if Ascii.eqb c "."%char && is_digit d then
              let '(ds, r') := span_digits (d :: r) in (c :: ds, r')
            else ([], r1)
        | _ => ([], r1)
        end in
      let '(exp, r3) :=
        match r2 with
        | e :: r =>
            if Ascii.eqb e "e"%char || Ascii.eqb e "E"%char then
              let '(sg, r') :=
                match r with
                | c :: r'' =>
                    if Ascii.eqb c "+"%char || Ascii.eqb c "-"%char
                    then ([c], r'') else ([], r)
                | [] => ([], r)
                end in
              match span_digits r' with
              | ([], _) => ([], r2)
              | (ds, r'') => (e :: sg ++ ds, r'')
              end
            else ([], r2)
        | [] => ([], r2)
        end in
      match frac, exp with
      | [], [] =>
          let z := digits_value ids in
          Some (JInt (if neg then Z.opp z else z), r3)
      | _, _ =>
          Some (JFloat (string_of_list_ascii
                          ((if neg then ["-"%char] else []) ++ ids ++ frac ++ exp)),
                r3)
      end
  end.

Definition hex_val (c : ascii) : option N :=
  let n := N_of_ascii c in
  if ((48 <=? n) && (n <=? 57))%N then Some (n - 48)%N
  else if ((65 <=? n) && (n <=? 70))%N then Some (n - 55)%N
  else if ((97 <=? n) && (n <=? 102))%N then Some (n - 87)%N
  else None.

(** [_decode_uXXXX]: exactly four hex digits. *)
Definition hex4 (s : list ascii) : option (N * list ascii) :=
  match s with
  | a :: b :: c :: d :: r =>
      match hex_val a, hex_val b, hex_val c, hex_val d with
      | Some x, Some y, Some z, Some w =>
          Some ((((x * 16 + y) * 16 + z) * 16 + w)%N, r)
      | _, _, _, _ => None
      end
  | _ => None
  end.

(** A code point as the UTF-8 bytes that stand for it in a [string]. *)
Definition utf8_encode (n : N) : list ascii :=
  let b (k : N) := ascii_of_N k in
  if (n <? 128)%N then [b n]
  else if (n <? 2048)%N then
    [b (192 + n / 64); b (128 + n mod 64)]%N
  else if (n <? 65536)%N then
    [b (224 + n / 4096); b (128 + (n / 64) mod 64); b (128 + n mod 64)]%N
  else
    [b (240 + n / 262144); b (128 + (n / 4096) mod 64);
     b (128 + (n / 64) mod 64); b (128 + n mod 64)]%N.

(** The code points of Python's whitespace ([Py_UNICODE_ISSPACE]), which
    [str.strip()] removes and [\s] matches in a str pattern of [re]. *)
Definition py_space_code_points : list N :=
  [9; 10; 11; 12; 13; 28; 29; 30; 31; 32; 133; 160; 5760;
   8192; 8193; 8194; 8195; 8196; 8197; 8198; 8199; 8200; 8201; 8202;
   8232; 8233; 8239; 8287; 12288]%N.

(** Their UTF-8 encodings: a [string] holds the UTF-8 bytes of a str. *)
Definition py_space_bytes : list (list ascii) := map utf8_encode py_space_code_points.

(** The longest run of whitespace code points at the start of [s], among
    the encodings [ws] (UTF-8 is prefix-free: at most one matches), and
    the rest of [s]. *)
Fixpoint span_codes (ws : list (list ascii)) (fuel : nat) (s : list ascii)
  : list ascii * list ascii :=
  match fuel with
  | O => ([], s)
  | S f =>
      match find (fun w => starts_with w s) ws with
      | Some w => let '(a, b) := span_codes ws f (skipn (length w) s) in (w ++ a, b)
      | None => ([], s)
      end
  end.

(** [s.strip()]: whitespace is dropped from the start, then from the end
    (on the reversed bytes, with the reversed encodings). *)
Definition py_strip (s : string) : string :=
  let cs := list_ascii_of_string s in
  let l := snd (span_codes py_space_bytes (length cs) cs) in
  string_of_list_ascii
    (rev (snd (span_codes (map (@rev ascii) py_space_bytes) (length l) (rev l)))).

(** [py_scanstring], from just after the opening quote; the decoded
    characters are accumulated in reverse in [acc]. A high surrogate
    followed by an escaped low surrogate is combined. *)
Fixpoint scan_string (strict : bool) (acc : list ascii) (s : list ascii)
  : option (string * list ascii) :=
  match s with
  | [] => None
  | c :: r =>
      if Ascii.eqb c dquote then Some (string_of_list_ascii (rev acc), r)
      else if Ascii.eqb c backslash then
        match r with
        | [] => None
        | e :: r' =>
            if Ascii.eqb e "u"%char then
              match r' with
              | a :: b :: c3 :: d :: r'' =>
                  match hex4 [a; b; c3; d] with
                  | None => None
                  | Some (u, _) =>
                      let lone := scan_string strict (rev (utf8_encode u) ++ acc) r'' in
                      if ((55296 <=? u) && (u <=? 56319))%N then
                        match r'' with
                        | bs :: uu :: a2 :: b2 :: c2 :: d2 :: r3 =>
                            if Ascii.eqb bs backslash && Ascii.eqb uu "u"%char then
                              match hex4 [a2; b2; c2; d2] with
                              | None => None
                              | Some (u2, _) =>
                                  if ((56320 <=? u2) && (u2 <=? 57343))%N then
                                    let cp := (65536 + (N.lor (N.shiftl (u - 55296) 10)
                                                              (u2 - 56320)))%N in
                                    scan_string strict (rev (utf8_encode cp) ++ acc) r3
                                  else lone
                              end
                            else lone
                        | bs :: uu :: _ =>
                            if Ascii.eqb bs backslash && Ascii.eqb uu "u"%char
                            then None else lone
                        | _ => lone
                        end
                      else lone
                  end
              | _ => None
              end
            else
              let unescaped :=
                if Ascii.eqb e dquote then Some dquote
                else if Ascii.eqb e backslash then Some backslash
                else if Ascii.eqb e "/"%char then Some "/"%char
                else if Ascii.eqb e "b"%char then Some (ascii_of_nat 8)
                else if Ascii.eqb e "f"%char then Some (ascii_of_nat 12)
                else if Ascii.eqb e "n"%char then Some ch_nl
                else if Ascii.eqb e "r"%char then Some ch_cr
                else if Ascii.eqb e "t"%char then Some ch_tab
                else None in
              match unescaped with
              | Some x => scan_string strict (x :: acc) r'
              | None => None
              end
        end
      else if strict && (nat_of_ascii c <? 32)%nat then None
      else scan_string strict (c :: acc) r
  end.

Definition lit (w : string) : list ascii := list_ascii_of_string w.

(** [scan_once], [JSONObject] and [JSONArray]. [fuel] only bounds the
    recursion: every nested call consumes input first, so the fuel of
    [json_loads] (twice the length plus two) is never the limit. Objects
    are built with [dict_set], as [dict(pairs)] does. *)
Fixpoint parse_value (strict : bool) (fuel : nat) (s : list ascii)
  {struct fuel} : option (json * list ascii) :=
  match fuel with
  | O => None
  | S f =>
      match s with
      | [] => None
      | c :: r =>
          if Ascii.eqb c dquote then
            match scan_string strict [] r with
            | Some (x, r') => Some (JStr x, r')
            | None => None
            end
          else if Ascii.eqb c "{"%char then
            match skip_ws r with
            | c1 :: r2 =>
                if Ascii.eqb c1 "}"%char then Some (JObj [], r2)
                else parse_members strict f [] (c1 :: r2)
            | [] => None
            end
          else if Ascii.eqb c "["%char then
            match skip_ws r with
            | c1 :: r2 =>
                if Ascii.eqb c1 "]"%char then Some (JArr [], r2)
                else parse_elems strict f [] (c1 :: r2)
            | [] => None
            end
          else if starts_with (lit "null") s then Some (JNull, skipn 4 s)
          else if starts_with (lit "true") s then Some (JBool true, skipn 4 s)
          else if starts_with (lit "false") s then Some (JBool false, skipn 5 s)
          else match parse_number s with
               | Some res => Some res
               | None =>
                   if starts_with (lit "NaN") s then
                     Some (JFloat "NaN", skipn 3 s)
                   else if starts_with (lit "Infinity") s then
                     Some (JFloat "Infinity", skipn 8 s)
                   else if starts_with (lit "-Infinity") s then
                     Some (JFloat "-Infinity", skipn 9 s)
                   else None
               end
      end
  end
with parse_elems (strict : bool) (fuel : nat) (acc : list json)
  (s : list ascii) {struct fuel} : option (json * list ascii) :=
  match fuel with
  | O => None
  | S f =>
      match parse_value strict f s with
      | None => None
      | Some (v, r) =>
          match skip_ws r with
          | c :: r' =>
              if Ascii.eqb c "]"%char then Some (JArr (rev (v :: acc)), r')
              else if Ascii.eqb c ","%char then
                parse_elems strict f (v :: acc) (skip_ws r')
              else None
          | [] => None
          end
      end
  end
with parse_members (strict : bool) (fuel : nat) (acc : list (string * json))
  (s : list ascii) {struct fuel} : option (json * list ascii) :=
  match fuel with
  | O => None
  | S f =>
      match s with
      | c :: r =>
          if Ascii.eqb c dquote then
            match scan_string strict [] r with
            | None => None
            | Some (k, r1) =>
                match skip_ws r1 with
                | c2 :: r2 =>
                    if Ascii.eqb c2 ":"%char then
                      match parse_value strict f (skip_ws r2) with
                      | None => None
                      | Some (v, r3) =>
                          let acc' := dict_set acc k v in
                          match skip_ws r3 with
                          | c4 :: r4 =>
                              if Ascii.eqb c4 "}"%char then Some (JObj acc', r4)
                              else if Ascii.eqb c4 ","%char then
                                parse_members strict f acc' (skip_ws r4)
                              else None
                          | [] => None
                          end
                      end
                    else None
                | [] => None
                end
            end
          else None
      | [] => None
      end
  end.

(** [json.loads(s, strict=strict)]; [None] is a [JSONDecodeError]. *)
Definition json_loads_chars (strict : bool) (cs : list ascii) : option json :=
  match parse_value strict (2 * length cs + 2) (skip_ws cs) with
  | Some (v, r) => match skip_ws r with [] => Some v | _ => None end
  | None => None
  end.

Definition json_loads (strict : bool) (s : string) : option json :=
  json_loads_chars strict (list_ascii_of_string s).

(** ** Exceptions and results

    The Python exceptions that the modelled code raises or lets through. *)

(** One entry of a pydantic [ValidationError]: the location and the
    error type ([missing], [string_type], [list_type], [model_type]). *)
Inductive loc_item : Type := LKey (k : string) | LIdx (i : nat).

Record validation_error : Type := mkValidationError {
  ve_loc : list loc_item;
  ve_type : string
}.

(** Why an [OutputParserException] was raised by the Pydantic parser:
    the text held no JSON ([Invalid json output: ...]) or the JSON failed
    the model's validation ([Failed to parse Summary from completion ...]). *)
Inductive parser_failure : Type :=
| InvalidJson
| FailedToParse (errors : list validation_error).

Inductive exn : Type :=
| JSONDecodeError
| OutputParserException (why : parser_failure) (llm_output : string)
| ValueError (msg : string)
| AttributeError (msg : string)
| RequestException (msg : string)
| APIError (msg : string).

Inductive result (A : Type) : Type :=
| Ok (a : A)
| Err (e : exn).
Arguments Ok {A} a.
Arguments Err {A} e.

(** ** langchain_core.utils.json *)

Definition chunk_bs_n : list ascii := [backslash; "n"%char].

(** The character loop of [parse_partial_json]: [chunks] is [new_chars]
    with its last element first, [stack] the closing characters with the
    innermost first. [None] is the early [return None] on a mismatched
    closing character. *)
Fixpoint partial_scan (s : list ascii) (chunks : list (list ascii))
  (stack : list ascii) (in_str escaped : bool)
  : option (list (list ascii) * list ascii * bool * bool) :=
  match s with
  | [] => Some (chunks, stack, in_str, escaped)
  | c :: r =>
      if in_str then
        if Ascii.eqb c dquote && negb escaped then
          partial_scan r ([c] :: chunks) stack false escaped
        else if Ascii.eqb c ch_nl && negb escaped then
          partial_scan r (chunk_bs_n :: chunks) stack true escaped
        else if Ascii.eqb c backslash then
          partial_scan r ([c] :: chunks) stack true (negb escaped)
        else partial_scan r ([c] :: chunks) stack true false
      else if Ascii.eqb c dquote then
        partial_scan r ([c] :: chunks) stack true false
      else if Ascii.eqb c "{"%char then
        partial_scan r ([c] :: chunks) ("}"%char :: stack) false escaped
      else if Ascii.eqb c "["%char then
        partial_scan r ([c] :: chunks) ("]"%char :: stack) false escaped
      else if Ascii.eqb c "}"%char || Ascii.eqb c "]"%char then
        match stack with
        | top :: stack' =>
            if Ascii.eqb top c
            then partial_scan r ([c] :: chunks) stack' false escaped
            else None
        | [] => None
        end
      else partial_scan r ([c] :: chunks) stack false escaped
  end.

(** The [while new_chars:] loop: try the text closed by [stack], else
    drop the last chunk. *)
Fixpoint partial_retry (chunks : list (list ascii)) (stack : list ascii)
  : option json :=
  match chunks with
  | [] => None
  | _ :: older =>
      match json_loads_chars false (concat (rev chunks) ++ stack) with
      | Some v => Some v
      | None => partial_retry older stack
      end
  end.

(** [parse_partial_json(s, strict=False)]. *)
Definition parse_partial_json (s : string) : result json :=
  let cs := list_ascii_of_string s in
  match json_loads_chars false cs with
  | Some v => Ok v
  | None =>
      match partial_scan cs [] [] false false with
      | None => Ok JNull
      | Some (chunks, stack, in_str, escaped) =>
          let chunks' :=
            if in_str then
              [dquote] :: (if escaped then tl chunks else chunks)
            else chunks in
          match partial_retry chunks' stack with
          | Some v => Ok v
          | None =>
              match json_loads_chars false cs with
              | Some v => Ok v
              | None => Err JSONDecodeError
              end
          end
      end
  end.

Fixpoint span_while (p : ascii -> bool) (s : list ascii)
  : list ascii * list ascii :=
  match s with
  | c :: r => if p c then let '(a, b) := span_while p r in (c :: a, b)
              else ([], s)
  | [] => ([], [])
  end.

Fixpoint span_until_quote (s : list ascii) : option (list ascii * list ascii) :=
  match s with
  | [] => None
  | c :: r =>
      if Ascii.eqb c dquote then Some ([], r)
      else match span_until_quote r with
           | Some (a, b) => Some (c :: a, b)
           | None => None
           end
  end.

(** [_replace_new_line] on group 2 (which holds no quote). *)
Fixpoint escape_new_lines (s : list ascii) : list ascii :=
  match s with
  | [] => []
  | c :: r =>
      (if Ascii.eqb c ch_nl then [backslash; "n"%char]
       else if Ascii.eqb c ch_cr then [backslash; "r"%char]
       else if Ascii.eqb c ch_tab then [backslash; "t"%char]
       else [c]) ++ escape_new_lines r
  end.

Definition action_input_key : list ascii :=
  lit (q ++ "action_input" ++ q ++ ":").

(** A match of the pattern of [_custom_parser] at the start of [s]:
    the replacement text and the input after the match. *)
Definition action_input_match (s : list ascii)
  : option (list ascii * list ascii) :=
  if starts_with action_input_key s then
    let '(ws, r1) := span_codes py_space_bytes (length s) (skipn (length action_input_key) s) in
    match r1 with
    | c :: r2 =>
        if Ascii.eqb c dquote then
          match span_until_quote r2 with
          | Some (g2, r3) =>
              Some (action_input_key ++ ws ++ [dquote] ++ escape_new_lines g2
                    ++ [dquote], r3)
          | None => None
          end
        else None
    | [] => None
    end
  else None.

Fixpoint custom_parser_aux (fuel : nat) (s : list ascii) : list ascii :=
  match fuel with
  | O => s
  | S f =>
      match s with
      | [] => []
      | c :: r =>
          match action_input_match s with
          | Some (rep, rest) => rep ++ custom_parser_aux f rest
          | None => c :: custom_parser_aux f r
          end
      end
  end.

(** [_custom_parser]: [re.sub] of the [action_input] pattern. *)
Definition custom_parser (s : string) : string :=
  let cs := list_ascii_of_string s in
  string_of_list_ascii (custom_parser_aux (S (length cs)) cs).

(** [_parse_json]: strip, [_custom_parser], [parse_partial_json]. *)
Definition parse_json_text (s : string) : result json :=
  parse_partial_json (custom_parser (py_strip_by is_json_strip_char s)).

Definition fence : list ascii := lit "```".

(** [_json_markdown_re.search(s).group(2)] for the pattern made of three
    backticks, an optional [json] and a greedy dot-star group under
    [re.DOTALL]: everything after the first fence and its [json] tag. *)
Fixpoint markdown_group2 (s : list ascii) : option (list ascii) :=
  match s with
  | [] => None
  | _ :: r =>
      if starts_with fence s then
        let after := skipn 3 s in
        Some (if starts_with (lit "json") after then skipn 4 after else after)
      else markdown_group2 r
  end.

(** [parse_json_markdown]. *)
Definition parse_json_markdown (s : string) : result json :=
  match parse_json_text s with
  | Ok v => Ok v
  | Err JSONDecodeError =>
      let json_str :=
        match markdown_group2 (list_ascii_of_string s) with
        | None => s
        | Some g => string_of_list_ascii g
        end in
      parse_json_text json_str
  | Err e => Err e
  end.

(** [JsonOutputParser.parse_result] with [partial=False]. *)
Definition json_parse_result (text : string) : result json :=
  let text := py_strip text in
  match parse_json_markdown text with
  | Ok v => Ok v
  | Err JSONDecodeError => Err (OutputParserException InvalidJson text)
  | Err e => Err e
  end.

(** ** [json.dumps] (json/encoder.py), separators [', '] and [': '] *)

Definition hex_digit (n : N) : ascii :=
  if (n <? 10)%N then ascii_of_N (48 + n) else ascii_of_N (87 + n).

(** [\uXXXX] with four lowercase hex digits. *)
Definition u_escape (n : N) : list ascii :=
  [backslash; "u"%char; hex_digit ((n / 4096) mod 16); hex_digit ((n / 256) mod 16);
   hex_digit ((n / 16) mod 16); hex_digit (n mod 16)].

(** The code points of a UTF-8 encoded [string]. *)
Fixpoint utf8_decode (s : list ascii) : list N :=
  match s with
  | [] => []
  | a :: r =>
      let x := N_of_ascii a in
      if (x <? 128)%N then x :: utf8_decode r
      else if (x <? 224)%N then
        match r with
        | b :: r' => ((x - 192) * 64 + (N_of_ascii b - 128))%N :: utf8_decode r'
        | [] => [x]
        end
      else if (x <? 240)%N then
        match r with
        | b :: c :: r' =>
            ((x - 224) * 4096 + (N_of_ascii b - 128) * 64
             + (N_of_ascii c - 128))%N :: utf8_decode r'
        | _ => [x]
        end
      else
        match r with
        | b :: c :: d :: r' =>
            ((x - 240) * 262144 + (N_of_ascii b - 128) * 4096
             + (N_of_ascii c - 128) * 64 + (N_of_ascii d - 128))%N
            :: utf8_decode r'
        | _ => [x]
        end
  end.

(** The short escapes of [ESCAPE_DCT]. *)
Definition short_escape (n : N) : option (list ascii) :=
  if (n =? 34)%N then Some [backslash; dquote]
  else if (n =? 92)%N then Some [backslash; backslash]
  else if (n =? 10)%N then Some [backslash; "n"%char]
  else if (n =? 13)%N then Some [backslash; "r"%char]
  else if (n =? 9)%N then Some [backslash; "t"%char]
  else if (n =? 8)%N then Some [backslash; "b"%char]
  else if (n =? 12)%N then Some [backslash; "f"%char]
  else None.

(** [py_encode_basestring_ascii] ([ensure_ascii=True]): every code point
    outside space to tilde is escaped, above 0xFFFF as a surrogate pair. *)
Definition escape_cp_ascii (n : N) : list ascii :=
  match short_escape n with
  | Some e => e
  | None =>
      if ((32 <=? n) && (n <=? 126))%N then [ascii_of_N n]
      else if (n <? 65536)%N then u_escape n
      else let m := (n - 65536)%N in
           u_escape (55296 + m / 1024)%N ++ u_escape (56320 + m mod 1024)%N
  end.

(** [py_encode_basestring] ([ensure_ascii=False]): only quotes,
    backslashes and control characters are escaped. *)
Definition escape_cp_unicode (n : N) : list ascii :=
  match short_escape n with
  | Some e => e
  | None => if (n <? 32)%N then u_escape n else utf8_encode n
  end.

Definition encode_py_string (ensure_ascii : bool) (s : string) : list ascii :=
  [dquote] ++ concat (map (if ensure_ascii then escape_cp_ascii else escape_cp_unicode)
                          (utf8_decode (list_ascii_of_string s)))
  ++ [dquote].

Definition Z_to_dec (z : Z) : string := NilEmpty.string_of_int (Z.to_int z).

(** ** Python floats (IEEE 754 binary64)

    [float(lexeme)] as [json.loads] computes it for a float lexeme, and
    [float.__repr__], which [json.dumps] and [str] print. *)

(** A float: a signed zero or infinity, NaN, or the finite nonzero value
    [(-1)^neg * m * 2^e] with [m < 2^53], either normal ([2^52 <= m]) or
    subnormal ([e = -1074]). *)
Inductive py_float : Type :=
| FZero (neg : bool)
| FInf (neg : bool)
| FNaN
| FFin (neg : bool) (m e : Z).

(** [n / d] rounded to the nearest integer, ties to even. *)
Definition round_half_even (n d : Z) : Z :=
  let q := (n / d)%Z in
  let r := (n mod d)%Z in
  match Z.compare (2 * r) d with
  | Lt => q
  | Gt => (q + 1)%Z
  | Eq => if Z.even q then q else (q + 1)%Z
  end.

(** The binary64 value nearest to the positive rational [num / den], ties
    to even: [Some (m, e)] with [m = 0] on underflow, [None] on overflow. *)
Definition binary64_of_ratio (num den : Z) : option (Z * Z) :=
  let k0 := (Z.log2 num - Z.log2 den)%Z in
  let k := if (0 <=? k0)%Z
           then (if (den * 2 ^ k0 <=? num)%Z then k0 else (k0 - 1)%Z)
           else (if (den <=? num * 2 ^ (- k0))%Z then k0 else (k0 - 1)%Z) in
  let e := Z.max (k - 52) (-1074) in
  let m := if (0 <=? e)%Z then round_half_even num (den * 2 ^ e)
           else round_half_even (num * 2 ^ (- e)) den in
  let '(m, e) := if (m =? 2 ^ 53)%Z then ((2 ^ 52)%Z, (e + 1)%Z) else (m, e) in
  if (971 <? e)%Z then None else Some (m, e).

(** Number of decimal digits of a positive integer. *)
Definition dec_len (z : Z) : Z := Z.of_nat (length (list_ascii_of_string (Z_to_dec z))).

(** [float(lexeme)] for a lexeme of [NUMBER_RE] with a fraction or an
    exponent, and for [NaN], [Infinity] and [-Infinity]. The value
    [mant * 10^t] is rounded to nearest; a value of at least [10^309]
    overflows to infinity and one below [10^-330] underflows to zero, so
    these two are decided without computing the rounding. *)
Definition float_of_lexeme (lexeme : string) : py_float :=
  if String.eqb lexeme "NaN" then FNaN
  else if String.eqb lexeme "Infinity" then FInf false
  else if String.eqb lexeme "-Infinity" then FInf true
  else
    let cs := list_ascii_of_string lexeme in
    let '(neg, cs) :=
      match cs with
      | c :: r => if Ascii.eqb c "-"%char then (true, r) else (false, cs)
      | [] => (false, cs)
      end in
    let '(ints, r1) := span_digits cs in
    let '(fracs, r2) :=
      match r1 with
      | c :: r => if Ascii.eqb c "."%char then span_digits r else ([], r1)
      | [] => ([], r1)
      end in
    let ex :=
      match r2 with
      | _ :: c :: r =>
          if Ascii.eqb c "-"%char then Z.opp (digits_value r)
          else if Ascii.eqb c "+"%char then digits_value r
          else digits_value (c :: r)
      | _ => 0%Z
      end in
    let mant := digits_value (ints ++ fracs) in
    let t := (ex - Z.of_nat (length fracs))%Z in
    if (mant =? 0)%Z then FZero neg
    else
      let nd := dec_len mant in
      if (310 <? nd + t)%Z then FInf neg
      else if (nd + t <? -330)%Z then FZero neg
      else
        match (if (0 <=? t)%Z then binary64_of_ratio (mant * 10 ^ t) 1
               else binary64_of_ratio mant (10 ^ (- t))) with
        | None => FInf neg
        | Some (m, e) => if (m =? 0)%Z then FZero neg else FFin neg m e
        end.

(** [P] with [10^(P-1) <= n / d < 10^P], for positive [n] and [d]. *)
Definition dec_exponent (n d : Z) : Z :=
  if (d <=? n)%Z then dec_len (n / d)
  else (1 - dec_len ((d + n - 1) / n - 1))%Z.

(** [c * 10^k] as a fraction. *)
Definition ratio_of_dec (c k : Z) : Z * Z :=
  if (0 <=? k)%Z then ((c * 10 ^ k)%Z, 1%Z) else (c, (10 ^ (- k))%Z).

(** Whether [float(c * 10^k)] is the finite float [m * 2^e]. *)
Definition rounds_to (c k m e : Z) : bool :=
  let '(a, b) := ratio_of_dec c k in
  match binary64_of_ratio a b with
  | Some (m', e') => (m' =? m)%Z && (e' =? e)%Z
  | None => false
  end.

(** The digits of [repr] ([_Py_dg_dtoa] mode 0): for [n = 1, 2, ...]
    the [n]-digit decimals [lo * 10^k] and [(lo + 1) * 10^k] around
    [x = xn / xd] (with [10^(P-1) <= x < 10^P] and [k = P - n]); the
    first that reads back as [x] is the shortest, and of two such the
    one nearer to [x]. Seventeen digits always read back. *)
Fixpoint shortest_digits (fuel : nat) (n m e xn xd P : Z) : Z * Z :=
  match fuel with
  | O => (0%Z, 0%Z)
  | S f =>
      let k := (P - n)%Z in
      let '(a, b) := if (0 <=? k)%Z then (xn, (xd * 10 ^ k)%Z)
                     else ((xn * 10 ^ (- k))%Z, xd) in
      let lo := (a / b)%Z in
      let r := (a mod b)%Z in
      if (r =? 0)%Z then (lo, k)
      else
        let lo_ok := rounds_to lo k m e in
        let hi_ok := rounds_to (lo + 1) k m e in
        if lo_ok && hi_ok then
          match Z.compare (2 * r) b with
          | Lt => (lo, k)
          | Gt => ((lo + 1)%Z, k)
          | Eq => if Z.even lo then (lo, k) else ((lo + 1)%Z, k)
          end
        else if lo_ok then (lo, k)
        else if hi_ok then ((lo + 1)%Z, k)
        else shortest_digits f (n + 1) m e xn xd P
  end.

Fixpoint strip_trailing_zeros (fuel : nat) (d k : Z) : Z * Z :=
  match fuel with
  | O => (d, k)
  | S f =>
      if (0 <? d)%Z && (d mod 10 =? 0)%Z
      then strip_trailing_zeros f (d / 10) (k + 1) else (d, k)
  end.

(** [format_float_short] for [repr]: the digits [ds] stand for
    [0.ds * 10^decpt]; scientific notation when [decpt <= -4] or
    [decpt > 16], with a signed exponent of at least two digits, and
    [.0] after an integral value in fixed notation. *)
Definition repr_digits (ds : list ascii) (decpt : Z) : list ascii :=
  let n := Z.of_nat (length ds) in
  if (decpt <=? -4)%Z || (16 <? decpt)%Z then
    let x := (decpt - 1)%Z in
    let ex := list_ascii_of_string (Z_to_dec (Z.abs x)) in
    match ds with
    | d :: rest => d :: (match rest with [] => [] | _ :: _ => "."%char :: rest end)
    | [] => []
    end
    ++ "e"%char :: (if (x <? 0)%Z then "-"%char else "+"%char)
    :: (match ex with [_] => "0"%char :: ex | _ => ex end)
  else if (decpt <=? 0)%Z then
    ["0"%char; "."%char] ++ repeat "0"%char (Z.to_nat (- decpt)) ++ ds
  else if (decpt <? n)%Z then
    firstn (Z.to_nat decpt) ds ++ "."%char :: skipn (Z.to_nat decpt) ds
  else ds ++ repeat "0"%char (Z.to_nat (decpt - n)) ++ ["."%char; "0"%char].

(** [float.__repr__] *)
Definition float_repr (x : py_float) : list ascii :=
  match x with
  | FNaN => list_ascii_of_string "nan"
  | FInf neg => (if neg then ["-"%char] else []) ++ list_ascii_of_string "inf"
  | FZero neg => (if neg then ["-"%char] else []) ++ list_ascii_of_string "0.0"
  | FFin neg m e =>
      let '(xn, xd) := if (0 <=? e)%Z then ((m * 2 ^ e)%Z, 1%Z) else (m, (2 ^ (- e))%Z) in
      let P := dec_exponent xn xd in
      let '(d, k) := shortest_digits 17 1 m e xn xd P in
      let '(d, k) := strip_trailing_zeros 20 d k in
      let ds := list_ascii_of_string (Z_to_dec d) in
      (if neg then ["-"%char] else []) ++ repr_digits ds (Z.of_nat (length ds) + k)
  end.

(** [floatstr] of json/encoder.py ([allow_nan=True]). *)
Definition json_float_repr (x : py_float) : list ascii :=
  match x with
  | FNaN => list_ascii_of_string "NaN"
  | FInf false => list_ascii_of_string "Infinity"
  | FInf true => list_ascii_of_string "-Infinity"
  | _ => float_repr x
  end.

Fixpoint join (sep : list ascii) (xs : list (list ascii)) : list ascii :=
  match xs with
  | [] => []
  | [x] => x
  | x :: r => x ++ sep ++ join sep r
  end.

(** [json.dumps(v, ensure_ascii=ensure_ascii)]; a float is printed by
    [floatstr], that is [float.__repr__] of [float(lexeme)]. *)
Fixpoint dumps_chars (ensure_ascii : bool) (v : json) : list ascii :=
  match v with
  | JNull => lit "null"
  | JBool true => lit "true"
  | JBool false => lit "false"
  | JInt z => lit (Z_to_dec z)
  | JFloat l => json_float_repr (float_of_lexeme l)
  | JStr s => encode_py_string ensure_ascii s
  | JArr xs => ["["%char] ++ join (lit ", ") (map (dumps_chars ensure_ascii) xs) ++ ["]"%char]
  | JObj kvs =>
      ["{"%char]
      ++ join (lit ", ")
           (map (fun '(k, x) => encode_py_string ensure_ascii k ++ lit ": "
                                ++ dumps_chars ensure_ascii x) kvs)
      ++ ["}"%char]
  end.

Definition json_dumps (v : json) : string := string_of_list_ascii (dumps_chars true v).

(** ** output_parsers.py: the [Summary] model and its parser *)

(** [class Summary(BaseModel)]: [summary: str], [facts: List[str]]. *)
Record Summary : Type := mkSummary {
  summary : string;
  facts : list string
}.

(** [Summary.to_dict] *)
Definition to_dict (s : Summary) : json :=
  JObj [("summary", JStr (summary s)); ("facts", JArr (map JStr (facts s)))].

(** pydantic's lax [str] validation of a JSON-decoded value. *)
Definition validate_str (loc : list loc_item) (v : json)
  : list validation_error + string :=
  match v with
  | JStr s => inr s
  | _ => inl [mkValidationError loc "string_type"]
  end.

Fixpoint validate_str_items (loc : list loc_item) (i : nat) (xs : list json)
  : list validation_error + list string :=
  match xs with
  | [] => inr []
  | x :: r =>
      match validate_str (loc ++ [LIdx i]) x, validate_str_items loc (S i) r with
      | inr s, inr ss => inr (s :: ss)
      | inl e1, inl e2 => inl (e1 ++ e2)
      | inl e1, inr _ => inl e1
      | inr _, inl e2 => inl e2
      end
  end.

(** pydantic's lax [List[str]] validation of a JSON-decoded value. *)
Definition validate_str_list (loc : list loc_item) (v : json)
  : list validation_error + list string :=
  match v with
  | JArr xs => validate_str_items loc 0 xs
  | _ => inl [mkValidationError loc "list_type"]
  end.

Definition validate_field {A : Type}
  (check : list loc_item -> json -> list validation_error + A)
  (d : list (string * json)) (k : string) : list validation_error + A :=
  match dict_get d k with
  | None => inl [mkValidationError [LKey k] "missing"]
  | Some v => check [LKey k] v
  end.

(** [Summary.model_validate(obj)]: the fields are checked in declaration
    order, every error is collected, extra keys are ignored. *)
Definition summary_model_validate (obj : json)
  : list validation_error + Summary :=
  match obj with
  | JObj d =>
      match validate_field validate_str d "summary",
            validate_field validate_str_list d "facts" with
      | inr s, inr fs => inr (mkSummary s fs)
      | inl e1, inl e2 => inl (e1 ++ e2)
      | inl e1, inr _ => inl e1
      | inr _, inl e2 => inl e2
      end
  | _ => inl [mkValidationError [] "model_type"]
  end.

(** [summary_output_parser.parse_result([ChatGeneration(text)])]:
    [JsonOutputParser.parse_result], then [_parse_obj]; a validation error
    becomes an [OutputParserException] whose [llm_output] is
    [json.dumps(json_object)]. *)
Definition summary_output_parser (text : string) : result Summary :=
  match json_parse_result text with
  | Err e => Err e
  | Ok obj =>
      match summary_model_validate obj with
      | inr s => Ok s
      | inl errs => Err (OutputParserException (FailedToParse errs) (json_dumps obj))
      end
  end.

(** ** External services and the state and error monad

    Every call to a network service is logged; [M] threads the log and
    stops at the first exception, as Python does. *)

(** An HTTP GET as [requests.get(url, params=params, timeout=timeout)]
    issues it; a parameter whose value is [None] is dropped by requests. *)
Record request : Type := mkRequest {
  req_url : string;
  req_params : list (string * option string);
  req_timeout : Z
}.

(** A step proposed by the ReAct agent ([AgentAction] or [AgentFinish]). *)
Record agent_action : Type := mkAgentAction {
  aa_tool : string;
  aa_tool_input : string;
  aa_log : string
}.

Inductive agent_step : Type :=
| AgentActionStep (a : agent_action)
| AgentFinish (output : string) (log : string).

Inductive ext_call : Type :=
| AgentModelCall (intermediate_steps : list (agent_action * string))
| SearchCall (query : string)
| HttpGet (req : request)
| ChatCall (prompt : string).

(** The services the code talks to.
    - [agent_plan]: one step of the agent runnable built by
      [create_react_agent] (the hub ReAct prompt, the chat model and
      [ReActSingleInputOutputParser]) from the task text and the
      intermediate steps; a text the parser rejects is an
      [OutputParserException].
    - [tavily_search]: [TavilySearchResults(max_results=1).run(query)] as
      the observation text; that tool returns [repr(e)] on errors.
    - [http_get]: the response body, or a requests exception.
    - [chat_llm]: [ChatOpenAI(model=gpt-4o-mini, temperature=0)].
    - [scrapin_api_key]: [os.getenv(SCRAPIN_API_KEY)]. *)
Record env : Type := mkEnv {
  agent_plan : string -> list (agent_action * string) -> result agent_step;
  tavily_search : string -> string;
  http_get : request -> result string;
  chat_llm : string -> result string;
  scrapin_api_key : option string
}.

Definition M (A : Type) : Type := list ext_call -> list ext_call * result A.

Definition ret {A : Type} (a : A) : M A := fun l => (l, Ok a).

Definition bind {A B : Type} (m : M A) (k : A -> M B) : M B :=
  fun l => match m l with
           | (l', Ok a) => k a l'
           | (l', Err e) => (l', Err e)
           end.

Definition raise {A : Type} (e : exn) : M A := fun l => (l, Err e).

Definition lift {A : Type} (r : result A) : M A := fun l => (l, r).

Definition emit (c : ext_call) : M unit := fun l => (l ++ [c], Ok tt).

Notation "x <- m ;; k" := (bind m (fun x => k))
  (at level 61, m at next level, right associativity).
Notation "m ;;; k" := (bind m (fun _ => k))
  (at level 61, right associativity).

(** Running a computation from an empty log. *)
Definition run {A : Type} (m : M A) : list ext_call * result A := m [].

(** ** tools/tools.py *)

(** [get_profile_url_tavily(name)]: [search.run(f"{name} LinkedIn profile")]. *)
Definition get_profile_url_tavily (e : env) (name : string) : M string :=
  let query := (name ++ " LinkedIn profile")%string in
  emit (SearchCall query) ;;;
  ret (tavily_search e query).

(** ** langchain's AgentExecutor (agents/agent.py) with the defaults the
    repository keeps: [max_iterations=15], [max_execution_time=None],
    [early_stopping_method=force], [handle_parsing_errors=False], tools
    without [return_direct]. *)

Definition default_max_iterations : nat := 15.

(** [return_stopped_response(force)] *)
Definition stopped_output : string :=
  "Agent stopped due to iteration limit or time limit.".

Definition parsing_error_prefix : string :=
  "An output parsing error occurred. In order to pass this error back to the agent and have it try again, pass `handle_parsing_errors=True` to the AgentExecutor. This is the error: ".

Definition exn_text (x : exn) : string :=
  match x with
  | OutputParserException _ t => t
  | ValueError m | AttributeError m | RequestException m | APIError m => m
  | JSONDecodeError => "JSONDecodeError"
  end.

(** A registered tool: its name and its function. *)
Record tool : Type := mkTool {
  tool_name : string;
  tool_func : string -> M string
}.

Fixpoint find_tool (tools : list tool) (n : string) : option tool :=
  match tools with
  | [] => None
  | t :: r => if String.eqb (tool_name t) n then Some t else find_tool r n
  end.

Fixpoint join_str (sep : string) (xs : list string) : string :=
  match xs with
  | [] => EmptyString
  | [x] => x
  | x :: r => (x ++ sep ++ join_str sep r)%string
  end.

(** [InvalidTool._run] *)
Definition invalid_tool_observation (requested : string) (available : list string)
  : string :=
  (requested ++ " is not a valid tool, try one of [" ++ join_str ", " available
   ++ "].")%string.

(** [_perform_agent_action]: run the named tool or [InvalidTool]. *)
Definition perform_agent_action (tools : list tool) (a : agent_action) : M string :=
  match find_tool tools (aa_tool a) with
  | Some t => tool_func t (aa_tool_input a)
  | None => ret (invalid_tool_observation (aa_tool a) (map tool_name tools))
  end.

(** One call of the agent's plan, with the [OutputParserException]
    handling of [_iter_next_step] when [handle_parsing_errors=False]. *)
Definition plan_step (e : env) (input : string)
  (steps : list (agent_action * string)) : M agent_step :=
  emit (AgentModelCall steps) ;;;
  match agent_plan e input steps with
  | Ok s => ret s
  | Err (OutputParserException w t as x) =>
      raise (ValueError (parsing_error_prefix ++ exn_text x)%string)
  | Err x => raise x
  end.

(** The [while self._should_continue(iterations, time_elapsed)] loop of
    [AgentExecutor._call]: [budget] is [max_iterations - iterations]. *)
Fixpoint executor_loop (e : env) (tools : list tool) (input : string)
  (budget : nat) (steps : list (agent_action * string)) : M string :=
  match budget with
  | O => ret stopped_output
  | S b =>
      next <- plan_step e input steps ;;
      match next with
      | AgentFinish output _ => ret output
      | AgentActionStep a =>
          observation <- perform_agent_action tools a ;;
          executor_loop e tools input b (steps ++ [(a, observation)])
      end
  end.

(** [AgentExecutor(agent=agent, tools=tools, max_iterations=max_iterations)
    .invoke({input: input})[output]] *)
Definition agent_executor_invoke (e : env) (tools : list tool)
  (max_iterations : nat) (input : string) : M string :=
  executor_loop e tools input max_iterations [].

(** ** agents/linkedin_lookup_agent.py *)

Definition nl : string := String ch_nl EmptyString.

(** [prompt_template.format_prompt(name_of_person=name)]: the lookup task. *)
Definition lookup_task (name : string) : string :=
  (nl ++ "        given the full name " ++ name
   ++ ", I want you to get back the LinkedIn profile URL. Your answer should ONLY contain a URL."
   ++ nl ++ "        If you cannot find it, return an empty string." ++ nl ++ "    ")%string.

(** [tools_for_agent] *)
Definition tools_for_agent (e : env) : list tool :=
  [mkTool "crawl Google 4 linkedin profile" (get_profile_url_tavily e)].

(** [lookup(name)]: [AgentExecutor(agent=agent, tools=tools_for_agent)],
    so with the default [max_iterations]; the result is [result[output]]. *)
Definition lookup (e : env) (name : string) : M string :=
  agent_executor_invoke e (tools_for_agent e) default_max_iterations (lookup_task name).

(** ** linkedin.py *)

Definition gist_url : string :=
  "https://gist.githubusercontent.com/YFolla/ff1954753eb6354728a292e77ee10795/raw/b177fcc64b7308b8b3a81eddbbb09bf647ed19c6/yfolla_linkedin.json".

Definition scrapin_endpoint : string := "https://api.scrapin.io/enrichment/profile".

Definition py_type_name (v : json) : string :=
  match v with
  | JNull => "NoneType"
  | JBool _ => "bool"
  | JInt _ => "int"
  | JFloat _ => "float"
  | JStr _ => "str"
  | JArr _ => "list"
  | JObj _ => "dict"
  end.

(** [AttributeError: 'T' object has no attribute 'a'] *)
Definition attribute_error (v : json) (attr : string) : exn :=
  AttributeError ("'" ++ py_type_name v ++ "' object has no attribute '" ++ attr ++ "'")%string.

(** [v in ([], "", None)]: Python's [==] against these three holds exactly
    for the empty list, the empty str and None. *)
Definition is_empty_value (v : json) : bool :=
  match v with
  | JArr [] => true
  | JStr EmptyString => true
  | JNull => true
  | _ => false
  end.

(** The dict comprehension that cleans the [person] object:
    [{k: v for k, v in data.items() if v not in ([], "", None)
      and k not in ["certifications"]}]. *)
Definition clean_person (data : list (string * json)) : list (string * json) :=
  filter (fun '(k, v) =>
            negb (is_empty_value v)
            && negb (existsb (String.eqb k) ["certifications"])) data.

(** [scrape_linkedin_profile(linkedin_profile_url, mock)]. The body is
    decoded by [response.json()] (strict [json.loads]); [.get] and
    [.items] on anything but a dict raise [AttributeError]. *)
Definition scrape_linkedin_profile (e : env) (linkedin_profile_url : string)
  (mock : bool) : M (list (string * json)) :=
  let req :=
    if mock then
      let linkedin_profile_url := gist_url in
      mkRequest linkedin_profile_url [] 10
    else
      mkRequest scrapin_endpoint
        [("apikey", scrapin_api_key e); ("linkedInUrl", Some linkedin_profile_url)] 10 in
  emit (HttpGet req) ;;;
  body <- lift (http_get e req) ;;
  payload <- lift (match json_loads true body with
                   | Some v => Ok v
                   | None => Err JSONDecodeError
                   end) ;;
  data <- (match payload with
           | JObj d => ret (match dict_get d "person" with Some v => v | None => JNull end)
           | v => raise (attribute_error v "get")
           end) ;;
  match data with
  | JObj d => ret (clean_person d)
  | v => raise (attribute_error v "items")
  end.

(** ** ice_breaker.py *)

(** The code points from 161 on that are not printable for
    [str.isprintable] ([Py_UNICODE_ISPRINTABLE]: categories Cc, Cf, Cs,
    Co, Cn, Zl, Zp and Zs), as closed ranges; from the tables of CPython
    3.11 (Unicode 14.0.0). *)
Definition py_nonprintable_ranges : list (N * N) := [
  (173, 173); (888, 889); (896, 899); (907, 907); (909, 909); (930, 930);
  (1328, 1328); (1367, 1368); (1419, 1420); (1424, 1424); (1480, 1487);
  (1515, 1518); (1525, 1541); (1564, 1564); (1757, 1757); (1806, 1807);
  (1867, 1868); (1970, 1983); (2043, 2044); (2094, 2095); (2111, 2111);
  (2140, 2141); (2143, 2143); (2155, 2159); (2191, 2199); (2274, 2274);
  (2436, 2436); (2445, 2446); (2449, 2450); (2473, 2473); (2481, 2481);
  (2483, 2485); (2490, 2491); (2501, 2502); (2505, 2506); (2511, 2518);
  (2520, 2523); (2526, 2526); (2532, 2533); (2559, 2560); (2564, 2564);
  (2571, 2574); (2577, 2578); (2601, 2601); (2609, 2609); (2612, 2612);
  (2615, 2615); (2618, 2619); (2621, 2621); (2627, 2630); (2633, 2634);
  (2638, 2640); (2642, 2648); (2653, 2653); (2655, 2661); (2679, 2688);
  (2692, 2692); (2702, 2702); (2706, 2706); (2729, 2729); (2737, 2737);
  (2740, 2740); (2746, 2747); (2758, 2758); (2762, 2762); (2766, 2767);
  (2769, 2783); (2788, 2789); (2802, 2808); (2816, 2816); (2820, 2820);
  (2829, 2830); (2833, 2834); (2857, 2857); (2865, 2865); (2868, 2868);
  (2874, 2875); (2885, 2886); (2889, 2890); (2894, 2900); (2904, 2907);
  (2910, 2910); (2916, 2917); (2936, 2945); (2948, 2948); (2955, 2957);
  (2961, 2961); (2966, 2968); (2971, 2971); (2973, 2973); (2976, 2978);
  (2981, 2983); (2987, 2989); (3002, 3005); (3011, 3013); (3017, 3017);
  (3022, 3023); (3025, 3030); (3032, 3045); (3067, 3071); (3085, 3085);
  (3089, 3089); (3113, 3113); (3130, 3131); (3141, 3141); (3145, 3145);
  (3150, 3156); (3159, 3159); (3163, 3164); (3166, 3167); (3172, 3173);
  (3184, 3190); (3213, 3213); (3217, 3217); (3241, 3241); (3252, 3252);
  (3258, 3259); (3269, 3269); (3273, 3273); (3278, 3284); (3287, 3292);
  (3295, 3295); (3300, 3301); (3312, 3312); (3315, 3327); (3341, 3341);
  (3345, 3345); (3397, 3397); (3401, 3401); (3408, 3411); (3428, 3429);
  (3456, 3456); (3460, 3460); (3479, 3481); (3506, 3506); (3516, 3516);
  (3518, 3519); (3527, 3529); (3531, 3534); (3541, 3541); (3543, 3543);
  (3552, 3557); (3568, 3569); (3573, 3584); (3643, 3646); (3676, 3712);
  (3715, 3715); (3717, 3717); (3723, 3723); (3748, 3748); (3750, 3750);
  (3774, 3775); (3781, 3781); (3783, 3783); (3790, 3791); (3802, 3803);
  (3808, 3839); (3912, 3912); (3949, 3952); (3992, 3992); (4029, 4029);
  (4045, 4045); (4059, 4095); (4294, 4294); (4296, 4300); (4302, 4303);
  (4681, 4681); (4686, 4687); (4695, 4695); (4697, 4697); (4702, 4703);
  (4745, 4745); (4750, 4751); (4785, 4785); (4790, 4791); (4799, 4799);
  (4801, 4801); (4806, 4807); (4823, 4823); (4881, 4881); (4886, 4887);
  (4955, 4956); (4989, 4991); (5018, 5023); (5110, 5111); (5118, 5119);
  (5760, 5760); (5789, 5791); (5881, 5887); (5910, 5918); (5943, 5951);
  (5972, 5983); (5997, 5997); (6001, 6001); (6004, 6015); (6110, 6111);
  (6122, 6127); (6138, 6143); (6158, 6158); (6170, 6175); (6265, 6271);
  (6315, 6319); (6390, 6399); (6431, 6431); (6444, 6447); (6460, 6463);
  (6465, 6467); (6510, 6511); (6517, 6527); (6572, 6575); (6602, 6607);
  (6619, 6621); (6684, 6685); (6751, 6751); (6781, 6782); (6794, 6799);
  (6810, 6815); (6830, 6831); (6863, 6911); (6989, 6991); (7039, 7039);
  (7156, 7163); (7224, 7226); (7242, 7244); (7305, 7311); (7355, 7356);
  (7368, 7375); (7419, 7423); (7958, 7959); (7966, 7967); (8006, 8007);
  (8014, 8015); (8024, 8024); (8026, 8026); (8028, 8028); (8030, 8030);
  (8062, 8063); (8117, 8117); (8133, 8133); (8148, 8149); (8156, 8156);
  (8176, 8177); (8181, 8181); (8191, 8207); (8232, 8239); (8287, 8303);
  (8306, 8307); (8335, 8335); (8349, 8351); (8385, 8399); (8433, 8447);
  (8588, 8591); (9255, 9279); (9291, 9311); (11124, 11125); (11158, 11158);
  (11508, 11512); (11558, 11558); (11560, 11564); (11566, 11567);
  (11624, 11630); (11633, 11646); (11671, 11679); (11687, 11687);
  (11695, 11695); (11703, 11703); (11711, 11711); (11719, 11719);
  (11727, 11727); (11735, 11735); (11743, 11743); (11870, 11903);
  (11930, 11930); (12020, 12031); (12246, 12271); (12284, 12288);
  (12352, 12352); (12439, 12440); (12544, 12548); (12592, 12592);
  (12687, 12687); (12772, 12783); (12831, 12831); (42125, 42127);
  (42183, 42191); (42540, 42559); (42744, 42751); (42955, 42959);
  (42962, 42962); (42964, 42964); (42970, 42993); (43053, 43055);
  (43066, 43071); (43128, 43135); (43206, 43213); (43226, 43231);
  (43348, 43358); (43389, 43391); (43470, 43470); (43482, 43485);
  (43519, 43519); (43575, 43583); (43598, 43599); (43610, 43611);
  (43715, 43738); (43767, 43776); (43783, 43784); (43791, 43792);
  (43799, 43807); (43815, 43815); (43823, 43823); (43884, 43887);
  (44014, 44015); (44026, 44031); (55204, 55215); (55239, 55242);
  (55292, 63743); (64110, 64111); (64218, 64255); (64263, 64274);
  (64280, 64284); (64311, 64311); (64317, 64317); (64319, 64319);
  (64322, 64322); (64325, 64325); (64451, 64466); (64912, 64913);
  (64968, 64974); (64976, 65007); (65050, 65055); (65107, 65107);
  (65127, 65127); (65132, 65135); (65141, 65141); (65277, 65280);
  (65471, 65473); (65480, 65481); (65488, 65489); (65496, 65497);
  (65501, 65503); (65511, 65511); (65519, 65531); (65534, 65535);
  (65548, 65548); (65575, 65575); (65595, 65595); (65598, 65598);
  (65614, 65615); (65630, 65663); (65787, 65791); (65795, 65798);
  (65844, 65846); (65935, 65935); (65949, 65951); (65953, 65999);
  (66046, 66175); (66205, 66207); (66257, 66271); (66300, 66303);
  (66340, 66348); (66379, 66383); (66427, 66431); (66462, 66462);
  (66500, 66503); (66518, 66559); (66718, 66719); (66730, 66735);
  (66772, 66775); (66812, 66815); (66856, 66863); (66916, 66926);
  (66939, 66939); (66955, 66955); (66963, 66963); (66966, 66966);
  (66978, 66978); (66994, 66994); (67002, 67002); (67005, 67071);
  (67383, 67391); (67414, 67423); (67432, 67455); (67462, 67462);
  (67505, 67505); (67515, 67583); (67590, 67591); (67593, 67593);
  (67638, 67638); (67641, 67643); (67645, 67646); (67670, 67670);
  (67743, 67750); (67760, 67807); (67827, 67827); (67830, 67834);
  (67868, 67870); (67898, 67902); (67904, 67967); (68024, 68027);
  (68048, 68049); (68100, 68100); (68103, 68107); (68116, 68116);
  (68120, 68120); (68150, 68151); (68155, 68158); (68169, 68175);
  (68185, 68191); (68256, 68287); (68327, 68330); (68343, 68351);
  (68406, 68408); (68438, 68439); (68467, 68471); (68498, 68504);
  (68509, 68520); (68528, 68607); (68681, 68735); (68787, 68799);
  (68851, 68857); (68904, 68911); (68922, 69215); (69247, 69247);
  (69290, 69290); (69294, 69295); (69298, 69375); (69416, 69423);
  (69466, 69487); (69514, 69551); (69580, 69599); (69623, 69631);
  (69710, 69713); (69750, 69758); (69821, 69821); (69827, 69839);
  (69865, 69871); (69882, 69887); (69941, 69941); (69960, 69967);
  (70007, 70015); (70112, 70112); (70133, 70143); (70162, 70162);
  (70207, 70271); (70279, 70279); (70281, 70281); (70286, 70286);
  (70302, 70302); (70314, 70319); (70379, 70383); (70394, 70399);
  (70404, 70404); (70413, 70414); (70417, 70418); (70441, 70441);
  (70449, 70449); (70452, 70452); (70458, 70458); (70469, 70470);
  (70473, 70474); (70478, 70479); (70481, 70486); (70488, 70492);
  (70500, 70501); (70509, 70511); (70517, 70655); (70748, 70748);
  (70754, 70783); (70856, 70863); (70874, 71039); (71094, 71095);
  (71134, 71167); (71237, 71247); (71258, 71263); (71277, 71295);
  (71354, 71359); (71370, 71423); (71451, 71452); (71468, 71471);
  (71495, 71679); (71740, 71839); (71923, 71934); (71943, 71944);
  (71946, 71947); (71956, 71956); (71959, 71959); (71990, 71990);
  (71993, 71994); (72007, 72015); (72026, 72095); (72104, 72105);
  (72152, 72153); (72165, 72191); (72264, 72271); (72355, 72367);
  (72441, 72703); (72713, 72713); (72759, 72759); (72774, 72783);
  (72813, 72815); (72848, 72849); (72872, 72872); (72887, 72959);
  (72967, 72967); (72970, 72970); (73015, 73017); (73019, 73019);
  (73022, 73022); (73032, 73039); (73050, 73055); (73062, 73062);
  (73065, 73065); (73103, 73103); (73106, 73106); (73113, 73119);
  (73130, 73439); (73465, 73647); (73649, 73663); (73714, 73726);
  (74650, 74751); (74863, 74863); (74869, 74879); (75076, 77711);
  (77811, 77823); (78895, 82943); (83527, 92159); (92729, 92735);
  (92767, 92767); (92778, 92781); (92863, 92863); (92874, 92879);
  (92910, 92911); (92918, 92927); (92998, 93007); (93018, 93018);
  (93026, 93026); (93048, 93052); (93072, 93759); (93851, 93951);
  (94027, 94030); (94088, 94094); (94112, 94175); (94181, 94191);
  (94194, 94207); (100344, 100351); (101590, 101631); (101641, 110575);
  (110580, 110580); (110588, 110588); (110591, 110591); (110883, 110927);
  (110931, 110947); (110952, 110959); (111356, 113663); (113771, 113775);
  (113789, 113791); (113801, 113807); (113818, 113819); (113824, 118527);
  (118574, 118575); (118599, 118607); (118724, 118783); (119030, 119039);
  (119079, 119080); (119155, 119162); (119275, 119295); (119366, 119519);
  (119540, 119551); (119639, 119647); (119673, 119807); (119893, 119893);
  (119965, 119965); (119968, 119969); (119971, 119972); (119975, 119976);
  (119981, 119981); (119994, 119994); (119996, 119996); (120004, 120004);
  (120070, 120070); (120075, 120076); (120085, 120085); (120093, 120093);
  (120122, 120122); (120127, 120127); (120133, 120133); (120135, 120137);
  (120145, 120145); (120486, 120487); (120780, 120781); (121484, 121498);
  (121504, 121504); (121520, 122623); (122655, 122879); (122887, 122887);
  (122905, 122906); (122914, 122914); (122917, 122917); (122923, 123135);
  (123181, 123183); (123198, 123199); (123210, 123213); (123216, 123535);
  (123567, 123583); (123642, 123646); (123648, 124895); (124903, 124903);
  (124908, 124908); (124911, 124911); (124927, 124927); (125125, 125126);
  (125143, 125183); (125260, 125263); (125274, 125277); (125280, 126064);
  (126133, 126208); (126270, 126463); (126468, 126468); (126496, 126496);
  (126499, 126499); (126501, 126502); (126504, 126504); (126515, 126515);
  (126520, 126520); (126522, 126522); (126524, 126529); (126531, 126534);
  (126536, 126536); (126538, 126538); (126540, 126540); (126544, 126544);
  (126547, 126547); (126549, 126550); (126552, 126552); (126554, 126554);
  (126556, 126556); (126558, 126558); (126560, 126560); (126563, 126563);
  (126565, 126566); (126571, 126571); (126579, 126579); (126584, 126584);
  (126589, 126589); (126591, 126591); (126602, 126602); (126620, 126624);
  (126628, 126628); (126634, 126634); (126652, 126703); (126706, 126975);
  (127020, 127023); (127124, 127135); (127151, 127152); (127168, 127168);
  (127184, 127184); (127222, 127231); (127406, 127461); (127491, 127503);
  (127548, 127551); (127561, 127567); (127570, 127583); (127590, 127743);
  (128728, 128732); (128749, 128751); (128765, 128767); (128884, 128895);
  (128985, 128991); (129004, 129007); (129009, 129023); (129036, 129039);
  (129096, 129103); (129114, 129119); (129160, 129167); (129198, 129199);
  (129202, 129279); (129620, 129631); (129646, 129647); (129653, 129655);
  (129661, 129663); (129671, 129679); (129709, 129711); (129723, 129727);
  (129734, 129743); (129754, 129759); (129768, 129775); (129783, 129791);
  (129939, 129939); (129995, 130031); (130042, 131071); (173792, 173823);
  (177977, 177983); (178206, 178207); (183970, 183983); (191457, 194559);
  (195102, 196607); (201547, 917759); (918000, 1114111)]%N.

Definition py_isprintable_cp (n : N) : bool :=
  negb (existsb (fun '(a, b) => (a <=? n)%N && (n <=? b)%N) py_nonprintable_ranges).

(** [repr] of one code point inside a Python str literal delimited by
    [quote] ([unicode_repr] of Objects/unicodeobject.c). *)
Definition repr_cp (quote n : N) : list ascii :=
  let hex k := map (fun i => hex_digit ((n / 16 ^ N.of_nat i) mod 16)) (rev (seq 0 k)) in
  if (n =? quote)%N || (n =? 92)%N then [backslash; ascii_of_N n]
  else if (n =? 9)%N then [backslash; "t"%char]
  else if (n =? 10)%N then [backslash; "n"%char]
  else if (n =? 13)%N then [backslash; "r"%char]
  else if (n <? 32)%N || (n =? 127)%N then backslash :: "x"%char :: hex 2
  else if (n <? 127)%N then [ascii_of_N n]
  else if (n <=? 160)%N then backslash :: "x"%char :: hex 2
  else if py_isprintable_cp n then utf8_encode n
  else if (n <=? 255)%N then backslash :: "x"%char :: hex 2
  else if (n <=? 65535)%N then backslash :: "u"%char :: hex 4
  else backslash :: "U"%char :: hex 8.

(** [repr(s)] for a str: single quotes unless the text holds a single
    quote and no double quote. *)
Definition py_repr_str (s : string) : list ascii :=
  let cps := utf8_decode (list_ascii_of_string s) in
  let quote := if existsb (N.eqb 39) cps && negb (existsb (N.eqb 34) cps)
               then 34%N else 39%N in
  [ascii_of_N quote] ++ concat (map (repr_cp quote) cps) ++ [ascii_of_N quote].

(** [repr(v)] (= [str(v)]) of a JSON-decoded value. *)
Fixpoint repr_chars (v : json) : list ascii :=
  match v with
  | JNull => lit "None"
  | JBool true => lit "True"
  | JBool false => lit "False"
  | JInt z => lit (Z_to_dec z)
  | JFloat l => float_repr (float_of_lexeme l)
  | JStr s => py_repr_str s
  | JArr xs => ["["%char] ++ join (lit ", ") (map repr_chars xs) ++ ["]"%char]
  | JObj kvs =>
      ["{"%char]
      ++ join (lit ", ") (map (fun '(k, x) => py_repr_str k ++ lit ": " ++ repr_chars x) kvs)
      ++ ["}"%char]
  end.

Definition py_str (v : json) : string := string_of_list_ascii (repr_chars v).

(** [Summary.model_json_schema()] as pydantic generates it. *)
(** [inspect.cleandoc(Summary.__doc__)], which pydantic puts in the schema
    as its [description] (a line of the docstring that holds only
    whitespace keeps what lies beyond the common indentation). *)
Definition summary_docstring : string :=
  ("Pydantic model defining the expected structure of LLM-generated summaries."
   ++ nl ++ nl ++ "This model serves multiple purposes:"
   ++ nl ++ "1. Schema Definition: Defines exactly what fields the LLM should return"
   ++ nl ++ "2. Validation: Automatically validates LLM responses match the schema"
   ++ nl ++ "3. Type Safety: Provides strong typing for the application"
   ++ nl ++ "4. Format Instructions: Generates instructions for the LLM"
   ++ nl ++ nl ++ "Fields:"
   ++ nl ++ "    summary (str): 2-3 sentence summary of the person"
   ++ nl ++ "    facts (List[str]): List of interesting facts about the person"
   ++ nl ++ "    "
   ++ nl ++ "LangChain Integration:"
   ++ nl ++ "- Used by PydanticOutputParser to validate LLM responses"
   ++ nl ++ "- Automatically generates format instructions for prompts"
   ++ nl ++ "- Ensures consistent output structure across all LLM calls")%string.

(** [Summary.model_json_schema()]: keys sorted, except those of
    [properties], which keep the field order. *)
Definition summary_json_schema : json :=
  JObj [("description", JStr summary_docstring);
        ("properties",
         JObj [("summary", JObj [("description", JStr "summary of the person");
                                 ("title", JStr "Summary"); ("type", JStr "string")]);
               ("facts", JObj [("description", JStr "interesting facts about the person");
                               ("items", JObj [("type", JStr "string")]);
                               ("title", JStr "Facts"); ("type", JStr "array")])]);
        ("required", JArr [JStr "summary"; JStr "facts"]);
        ("title", JStr "Summary"); ("type", JStr "object")].

Definition dict_delete (d : list (string * json)) (k : string) : list (string * json) :=
  filter (fun '(k', _) => negb (String.eqb k k')) d.

(** [_PYDANTIC_FORMAT_INSTRUCTIONS.format(schema=schema)] *)
Definition pydantic_format_instructions (schema : string) : string :=
  (qt "The output should be formatted as a JSON instance that conforms to the JSON schema below."
   ++ nl ++ nl
   ++ qt "As an example, for the schema {~properties~: {~foo~: {~title~: ~Foo~, ~description~: ~a list of strings~, ~type~: ~array~, ~items~: {~type~: ~string~}}}, ~required~: [~foo~]}"
   ++ nl
   ++ qt "the object {~foo~: [~bar~, ~baz~]} is a well-formatted instance of the schema. The object {~properties~: {~foo~: [~bar~, ~baz~]}} is not well-formatted."
   ++ nl ++ nl ++ "Here is the output schema:" ++ nl ++ "```" ++ nl ++ schema ++ nl ++ "```")%string.

(** [summary_output_parser.get_format_instructions()]: the schema without
    its [title] and [type], dumped with [ensure_ascii=False]. *)
Definition get_format_instructions : string :=
  let reduced :=
    match summary_json_schema with
    | JObj d => JObj (dict_delete (dict_delete d "title") "type")
    | v => v
    end in
  pydantic_format_instructions (string_of_list_ascii (dumps_chars false reduced)).

(** [summary_prompt_template.format(information=information)] *)
Definition summary_prompt (information format_instructions : string) : string :=
  (nl ++ "          given the LinkedIn information " ++ information
   ++ " about a person, I want you to create a short summary of 2-3 sentences that includes two interesting facts about them."
   ++ nl ++ "          " ++ nl ++ format_instructions ++ nl ++ "    ")%string.

(** [chain = summary_prompt_template | llm | summary_output_parser] and
    [chain.invoke({information: linkedin_data})]. *)
Definition summary_chain (e : env) (linkedin_data : json) : M Summary :=
  let prompt := summary_prompt (py_str linkedin_data) get_format_instructions in
  emit (ChatCall prompt) ;;;
  text <- lift (chat_llm e prompt) ;;
  lift (summary_output_parser text).

(** [ice_break_with(name)] *)
Definition ice_break_with (e : env) (name : string) : M (Summary * option json) :=
  linkedin_username <- lookup e name ;;
  linkedin_data <- scrape_linkedin_profile e linkedin_username false ;;
  result <- summary_chain e (JObj linkedin_data) ;;
  ret (result, dict_get linkedin_data "photoUrl").

(** ** app.py *)

Definition placeholder_picture_url : string :=
  "https://via.placeholder.com/300x300?text=No+Image".

(** [request.form.get(k)]: the first value sent for the key, or None. *)
Fixpoint form_get (form : list (string * string)) (k : string) : option string :=
  match form with
  | [] => None
  | (k', v) :: r => if String.eqb k k' then Some v else form_get r k
  end.

(** [float(lexeme) == 0.0] for a lexeme of [NUMBER_RE]: with the digits
    [m] and the scale [10^-t] the value [m * 10^-t] rounds to zero exactly
    when it is at most [2^-1075], half the least subnormal (a tie rounds
    to the even zero). NaN, Infinity and -Infinity are not zero. *)
Definition float_lexeme_is_zero (lexeme : string) : bool :=
  let cs := lit lexeme in
  let cs := match cs with
            | c :: r => if Ascii.eqb c "-"%char then r else cs
            | [] => cs
            end in
  let '(ints, r1) := span_digits cs in
  let '(fracs, r2) :=
    match r1 with
    | c :: r => if Ascii.eqb c "."%char then span_digits r else ([], r1)
    | [] => ([], r1)
    end in
  match ints with
  | [] => false
  | _ :: _ =>
      let ex :=
        match r2 with
        | _ :: c :: r =>
            if Ascii.eqb c "-"%char then Z.opp (digits_value r)
            else if Ascii.eqb c "+"%char then digits_value r
            else digits_value (c :: r)
        | _ => 0%Z
        end in
      let ds := ints ++ fracs in
      let m := digits_value ds in
      let t := (Z.of_nat (length fracs) - ex)%Z in
      if (m =? 0)%Z then true
      else if (t <=? 0)%Z then false
      else if (Z.of_nat (length ds) + 324 <=? t)%Z then true
      else (m * 2 ^ 1075 <=? 10 ^ t)%Z
  end.

(** [bool(v)] of a JSON-decoded value: None, False, 0, 0.0 and the empty
    str, list and dict are false. *)
Definition py_truthy (v : json) : bool :=
  match v with
  | JNull => false
  | JBool b => b
  | JInt z => negb (z =? 0)%Z
  | JFloat l => negb (float_lexeme_is_zero l)
  | JStr s => match s with EmptyString => false | String _ _ => true end
  | JArr xs => match xs with [] => false | _ :: _ => true end
  | JObj kvs => match kvs with [] => false | _ :: _ => true end
  end.

(** [photo_url or placeholder] *)
Definition picture_url_of (photo_url : option json) : json :=
  match photo_url with
  | Some v => if py_truthy v then v else JStr placeholder_picture_url
  | None => JStr placeholder_picture_url
  end.

Definition coming_soon : json := JArr [JStr "Coming soon..."].

(** [process()]: the [/process] route. The value passed to [jsonify] is
    returned; an exception of [ice_break_with] propagates (Flask answers
    it with an error page). [name] may be None: in [ice_break_with] it only
    reaches [prompt_template.format_prompt(name_of_person=name)], which
    formats it with [str], so None becomes the text None. *)
Definition process (e : env) (form : list (string * string)) : M json :=
  let name := form_get form "name" in
  res <- ice_break_with e (match name with Some n => n | None => "None" end) ;;
  let '(summary, photo_url) := res in
  ret (JObj [("summary_and_facts", to_dict summary);
             ("picture_url", picture_url_of photo_url);
             ("ice_breakers", JObj [("ice_breakers", coming_soon)]);
             ("interests", JObj [("topics_of_interest", coming_soon)])]).

(** ** Sample environments *)

(** A Scrapin.io body for a profile with a photo, a certification, an
    empty bio and an empty [languages] dict. *)
Definition sample_profile_body : string :=
  qt "{~person~: {~firstName~: ~Ada~, ~photoUrl~: ~https://img.example/ada.png~, ~certifications~: [~c1~], ~bio~: ~~, ~skills~: [~s1~], ~languages~: {}}}".

Definition sample_summary_text : string :=
  qt "{~summary~: ~Ada is an engineer.~, ~facts~: [~fact1~, ~fact2~]}".

Definition sample_url : string := "https://www.linkedin.com/in/ada/".

Definition search_action (query : string) : agent_action :=
  mkAgentAction "crawl Google 4 linkedin profile" query
    ("Thought: search" ++ nl ++ "Action: crawl Google 4 linkedin profile" ++ nl
     ++ "Action Input: " ++ query)%string.

(** A model that searches once and then answers [answer]. *)
Definition search_then_answer (answer : string) (input : string)
  (steps : list (agent_action * string)) : result agent_step :=
  match steps with
  | [] => Ok (AgentActionStep (search_action "Ada Lovelace"))
  | _ => Ok (AgentFinish answer ("Final Answer: " ++ answer)%string)
  end.

Definition sample_env (answer : string) (body : string) : env :=
  mkEnv (search_then_answer answer)
        (fun query => ("[{url: " ++ sample_url ++ "}]")%string)
        (fun _ => Ok body)
        (fun _ => Ok sample_summary_text)
        (Some "key").

(** A model that always asks for another search and never answers. *)
Definition always_search_env : env :=
  mkEnv (fun _ _ => Ok (AgentActionStep (search_action "Ada Lovelace")))
        (fun _ => "[]")
        (fun _ => Ok sample_profile_body)
        (fun _ => Ok sample_summary_text)
        (Some "key").

(** A Scrapin.io reply without a [person] object. *)
Definition no_person_body : string :=
  qt "{~success~: false, ~msg~: ~Profile not found~}".

Definition no_person_json : json :=
  JObj [("success", JBool false); ("msg", JStr "Profile not found")].

(** The request [scrape_linkedin_profile] sends. *)
Definition profile_request (e : env) (url : string) (mock : bool) : request :=
  if mock then mkRequest gist_url [] 10
  else mkRequest scrapin_endpoint
         [("apikey", scrapin_api_key e); ("linkedInUrl", Some url)] 10.

(** The [person] object of a decoded body, if it is a dict. *)
Definition person_object (j : json) : option (list (string * json)) :=
  match j with
  | JObj d => match dict_get d "person" with
              | Some (JObj p) => Some p
              | _ => None
              end
  | _ => None
  end.

(** The exception [response.json().get(person).items()] raises when there
    is no [person] dict. *)
Definition missing_person_error (j : json) : exn :=
  match j with
  | JObj d => attribute_error (match dict_get d "person" with
                               | Some v => v
                               | None => JNull
                               end) "items"
  | v => attribute_error v "get"
  end.

Definition claim_example_person : list (string * json) :=
  [("name", JStr "X"); ("certifications", JArr [JStr "c1"]);
   ("bio", JStr EmptyString); ("skills", JArr [JStr "s1"])].

Definition sample_cleaned : list (string * json) :=
  [("firstName", JStr "Ada"); ("photoUrl", JStr "https://img.example/ada.png");
   ("skills", JArr [JStr "s1"]); ("languages", JObj [])].


(** The same JSON, alone. *)
Definition bare_response : string :=
  qt "{~summary~: ~A is a engineer.~, ~facts~: [~fact1~,~fact2~]}".


(** The same JSON between a no-break space (U+00A0) and an ideographic
    space (U+3000). *)
Definition spaced_bare_response : string :=
  string_of_list_ascii (utf8_encode 160 ++ list_ascii_of_string bare_response
                        ++ utf8_encode 12288).






Definition engineer_summary : Summary := mkSummary "A is a engineer." ["fact1"; "fact2"].

(** A response whose JSON has a wrongly typed [summary]. *)
Definition int_summary_response : string := qt "{~summary~:1,~facts~:[]}".

(** A model that answers at once. *)
Definition answer_env (answer : string) : env :=
  mkEnv (fun _ _ => Ok (AgentFinish answer ("Final Answer: " ++ answer)%string))
        (fun _ => "[]")
        (fun _ => Ok sample_profile_body)
        (fun _ => Ok sample_summary_text)
        (Some "key").

(** A model that first names a tool the agent does not have. *)
Definition wrong_tool_env : env :=
  mkEnv (fun _ steps => match steps with
                        | [] => Ok (AgentActionStep
                                      (mkAgentAction "Google Search" "Ada Lovelace"
                                                     "Action: Google Search"))
                        | _ => Ok (AgentFinish sample_url sample_url)
                        end)
        (fun _ => "[]")
        (fun _ => Ok sample_profile_body)
        (fun _ => Ok sample_summary_text)
        (Some "key").

Definition unparsable_text : string := "Could not parse LLM output: I am not sure.".

(** A model whose first reply the ReAct parser rejects. *)
Definition unparsable_env : env :=
  mkEnv (fun _ _ => Err (OutputParserException InvalidJson unparsable_text))
        (fun _ => "[]")
        (fun _ => Ok sample_profile_body)
        (fun _ => Ok sample_summary_text)
        (Some "key").

Definition timeout_error : exn := RequestException "Read timed out. (read timeout=10)".

(** The agent finds the URL, then the profile request times out. *)
Definition failing_http_env : env :=
  mkEnv (search_then_answer sample_url)
        (fun query => ("[{url: " ++ sample_url ++ "}]")%string)
        (fun _ => Err timeout_error)
        (fun _ => Ok sample_summary_text)
        (Some "key").

(** A body with a raw line break inside a string: not strict JSON. *)
Definition raw_newline_body : string :=
  (qt "{~person~: {~bio~: ~line one" ++ nl ++ qt "line two~}}")%string.

(** A profile whose [photoUrl] is empty. *)
Definition no_photo_profile_body : string :=
  qt "{~person~: {~firstName~: ~Ada~, ~photoUrl~: ~~}}".

Fixpoint count_search_calls (l : list ext_call) : nat :=
  match l with
  | [] => 0
  | SearchCall _ :: r => S (count_search_calls r)
  | _ :: r => count_search_calls r
  end.

(** No key occurs twice in the list. *)
Fixpoint nodup_keys (ks : list string) : bool :=
  match ks with
  | [] => true
  | k :: r => negb (existsb (String.eqb k) r) && nodup_keys r
  end.

(** Every dict inside the value, at any depth, has distinct keys. *)
Fixpoint keys_unique (v : json) : bool :=
  match v with
  | JArr xs => forallb keys_unique xs
  | JObj kvs => nodup_keys (map fst kvs) && forallb (fun '(_, x) => keys_unique x) kvs
  | _ => true
  end.

(** The positions, counted from [i], of the items that are not strings. *)
Fixpoint non_str_indices (i : nat) (xs : list json) : list nat :=
  match xs with
  | [] => []
  | JStr _ :: r => non_str_indices (S i) r
  | _ :: r => i :: non_str_indices (S i) r
  end.

Fixpoint count_model_calls (l : list ext_call) : nat :=
  match l with
  | [] => 0
  | AgentModelCall _ :: r => S (count_model_calls r)
  | _ :: r => count_model_calls r
  end.

(** Printable ASCII other than the quote and the backslash: the
    characters that [json.dumps] copies unchanged into a string literal. *)
Definition plain_char (c : ascii) : bool :=
  let n := nat_of_ascii c in
  ((32 <=? n) && (n <=? 126))%nat && negb (Ascii.eqb c dquote) && negb (Ascii.eqb c backslash).

Definition plain_string (s : string) : bool := forallb plain_char (list_ascii_of_string s).

(** A JSON string literal around raw characters. *)
Definition quoted (l : list ascii) : list ascii := dquote :: l ++ [dquote].

(** No occurrence of the [action_input] key pattern of [_custom_parser]
    starts anywhere in [s]. *)
Fixpoint key_free (s : list ascii) : bool :=
  match s with
  | [] => true
  | _ :: r => negb (starts_with action_input_key s) && key_free r
  end.

Definition no_dquote (l : list ascii) : bool := forallb (fun c => negb (Ascii.eqb c dquote)) l.

(** * Properties *)

(** ** Helper lemmas *)

Lemma is_empty_value_spec (v : json) :
  is_empty_value v = true <-> v = JArr [] \/ v = JStr EmptyString \/ v = JNull.
Proof.
  split.
  - destruct v as [| | | |s|xs|]; simpl; try discriminate; intros H.
    + right; right; reflexivity.
    + destruct s; [right; left; reflexivity | discriminate].
    + destruct xs; [left; reflexivity | discriminate].
  - intros [-> | [-> | ->]]; reflexivity.
Qed.

Lemma in_clean_person (data : list (string * json)) (k : string) (v : json) :
  In (k, v) (clean_person data) <->
  In (k, v) data /\ k <> "certifications" /\ v <> JArr [] /\ v <> JStr EmptyString
  /\ v <> JNull.
Proof.
  unfold clean_person. rewrite filter_In. simpl.
  rewrite orb_false_r.
  destruct (is_empty_value v) eqn:He; destruct (String.eqb k "certifications") eqn:Hk;
    simpl.
  - split; [intros [_ H]; discriminate | ].
    intros [_ [Hk' _]]. apply String.eqb_eq in Hk. contradiction.
  - split; [intros [_ H]; discriminate | ].
    apply is_empty_value_spec in He. intros [_ [_ [H1 [H2 H3]]]].
    destruct He as [-> | [-> | ->]]; contradiction.
  - split; [intros [_ H]; discriminate | ].
    intros [_ [Hk' _]]. apply String.eqb_eq in Hk. contradiction.
  - split.
    + intros [Hin _]. apply String.eqb_neq in Hk.
      repeat split; auto; intros ->; discriminate.
    + intros [Hin _]. auto.
Qed.

Ltac unfold_monad :=
  unfold bind, emit, lift, ret, raise in *.

(** A successful scrape decoded a body whose [person] dict it cleaned. *)
Lemma scrape_ok_inv (e : env) (url : string) (mock : bool)
  (l l' : list ext_call) (d : list (string * json)) :
  scrape_linkedin_profile e url mock l = (l', Ok d) ->
  exists body j person,
    http_get e (profile_request e url mock) = Ok body
    /\ json_loads true body = Some j
    /\ person_object j = Some person
    /\ d = clean_person person.
Proof.
  unfold scrape_linkedin_profile, profile_request. unfold_monad.
  destruct mock; simpl;
    (destruct (http_get e _) as [body|x]; simpl; [|discriminate]);
    (destruct (json_loads true body) as [j|] eqn:Hj; simpl; [|discriminate]);
    destruct j as [| | | | | |kvs]; simpl; try discriminate;
    (destruct (dict_get kvs "person") as [p|] eqn:Hp; simpl; [|discriminate]);
    destruct p as [| | | | | |person]; try discriminate;
    intros H; inversion H; subst;
    exists body, (JObj kvs), person; simpl; rewrite Hp; auto.
Qed.

(** ** linkedin.py: cleaning the profile document *)

(** C3 (counterexample): the cleaned document can hold a key whose value
    is empty: an empty dict is not filtered out. *)
Lemma scrape_keeps_empty_dict :
  snd (run (scrape_linkedin_profile (sample_env sample_url sample_profile_body)
              sample_url false)) = Ok sample_cleaned
  /\ In ("languages", JObj []) sample_cleaned.
Proof.
  split; [vm_compute; reflexivity | simpl; tauto].
Qed.

(** C3 (amended): a document returned by [scrape_linkedin_profile] is the
    [person] dict of the decoded body with exactly the entries whose key
    is [certifications] or whose value is [], the empty string or None
    removed; so it has none of those, and every other value, an empty
    dict [{}] among them, is kept. On the claim's example the cleaning
    keeps exactly [name] and [skills]. *)
Theorem scrape_cleaned_has_no_empty_marker (e : env) (url : string) (mock : bool)
  (l l' : list ext_call) (d : list (string * json)) :
  scrape_linkedin_profile e url mock l = (l', Ok d) ->
  (exists body j person,
     http_get e (profile_request e url mock) = Ok body
     /\ json_loads true body = Some j
     /\ person_object j = Some person
     /\ d = clean_person person
     /\ (forall k v, In (k, v) d <->
           In (k, v) person /\ k <> "certifications" /\ v <> JArr []
           /\ v <> JStr EmptyString /\ v <> JNull)
     /\ (forall k, In (k, JObj []) person -> k <> "certifications" ->
           In (k, JObj []) d))
  /\ (forall k v, In (k, v) d ->
        k <> "certifications" /\ v <> JArr [] /\ v <> JStr EmptyString /\ v <> JNull)
  /\ clean_person claim_example_person
     = [("name", JStr "X"); ("skills", JArr [JStr "s1"])].
Proof.
  intros H. destruct (scrape_ok_inv _ _ _ _ _ _ H) as [body [j [person [Hb [Hj [Hp ->]]]]]].
  split; [|split; [|reflexivity]].
  - exists body, j, person. do 4 (split; [assumption || reflexivity|]).
    split; [apply in_clean_person|].
    intros k Hin Hk. apply in_clean_person.
    repeat split; [exact Hin | exact Hk | discriminate | discriminate | discriminate].
  - intros k v Hin. apply in_clean_person in Hin. tauto.
Qed.

Lemma scrape_cleaned_has_no_empty_marker_witness :
  scrape_linkedin_profile (sample_env sample_url sample_profile_body) sample_url false []
  = (fst (run (scrape_linkedin_profile (sample_env sample_url sample_profile_body)
                 sample_url false)), Ok sample_cleaned)
  /\ (exists body j person,
        http_get (sample_env sample_url sample_profile_body)
          (profile_request (sample_env sample_url sample_profile_body) sample_url false)
        = Ok body
        /\ json_loads true body = Some j
        /\ person_object j = Some person
        /\ sample_cleaned = clean_person person
        /\ (forall k v, In (k, v) sample_cleaned <->
              In (k, v) person /\ k <> "certifications" /\ v <> JArr []
              /\ v <> JStr EmptyString /\ v <> JNull)
        /\ (forall k, In (k, JObj []) person -> k <> "certifications" ->
              In (k, JObj []) sample_cleaned))
  /\ (forall k v, In (k, v) sample_cleaned ->
        k <> "certifications" /\ v <> JArr [] /\ v <> JStr EmptyString /\ v <> JNull)
  /\ clean_person claim_example_person
     = [("name", JStr "X"); ("skills", JArr [JStr "s1"])].
Proof.
  assert (H : scrape_linkedin_profile (sample_env sample_url sample_profile_body)
                sample_url false []
              = (fst (run (scrape_linkedin_profile (sample_env sample_url sample_profile_body)
                             sample_url false)), Ok sample_cleaned))
    by (vm_compute; reflexivity).
  split; [exact H|].
  exact (scrape_cleaned_has_no_empty_marker _ _ _ _ _ _ H).
Defined.

(** C9: in mock mode the URL argument is replaced by the Gist fixture URL,
    so two calls that differ only in the URL do exactly the same thing:
    same request, same log, same cleaned document or exception. *)
Theorem scrape_mock_ignores_url (e : env) (url1 url2 : string)
  (l : list ext_call) :
  scrape_linkedin_profile e url1 true l = scrape_linkedin_profile e url2 true l.
Proof.
  reflexivity.
Qed.

(** C10: the cleaning keeps a pair exactly when its key is not
    [certifications] and its value is none of [], the empty string and
    None; an empty dict, the number 0 and False are kept. *)
Theorem clean_person_filters_exactly_markers :
  (forall (data : list (string * json)) (k : string) (v : json),
     In (k, v) (clean_person data) <->
     In (k, v) data /\ k <> "certifications" /\ v <> JArr [] /\ v <> JStr EmptyString
     /\ v <> JNull)
  /\ clean_person [("a", JObj []); ("b", JInt 0); ("c", JBool false);
                   ("d", JFloat "0.0"); ("e", JArr []); ("f", JStr EmptyString);
                   ("g", JNull)]
     = [("a", JObj []); ("b", JInt 0); ("c", JBool false); ("d", JFloat "0.0")].
Proof.
  split; [exact in_clean_person | reflexivity].
Qed.

(** C6 (counterexample): a Scrapin.io reply without a [person] object
    makes [scrape_linkedin_profile] raise [AttributeError] from
    [None.items()]; no dedicated data-source error exists. *)
Lemma scrape_no_person_attribute_error :
  snd (run (scrape_linkedin_profile (sample_env sample_url no_person_body)
              sample_url false))
  = Err (AttributeError "'NoneType' object has no attribute 'items'").
Proof.
  vm_compute. reflexivity.
Qed.

(** C6 (amended): when the decoded body has no [person] object (the key
    is missing or not a dict, or the body is not a dict),
    [scrape_linkedin_profile] fails with the [AttributeError] of
    [.get] or [.items]. *)
Theorem scrape_without_person_raises (e : env) (url : string) (mock : bool)
  (l : list ext_call) (body : string) (j : json) :
  http_get e (profile_request e url mock) = Ok body ->
  json_loads true body = Some j ->
  person_object j = None ->
  snd (scrape_linkedin_profile e url mock l) = Err (missing_person_error j).
Proof.
  intros Hget Hj Hp.
  unfold scrape_linkedin_profile. unfold_monad.
  unfold profile_request in Hget.
  destruct mock; rewrite Hget; simpl; rewrite Hj;
    destruct j as [| | | | | |d]; simpl; try reflexivity;
    unfold person_object in Hp; unfold missing_person_error;
    destruct (dict_get d "person") as [p|]; try reflexivity;
    destruct p; try reflexivity; discriminate.
Qed.

Lemma scrape_without_person_raises_witness :
  http_get (sample_env sample_url no_person_body)
    (profile_request (sample_env sample_url no_person_body) sample_url false)
    = Ok no_person_body
  /\ json_loads true no_person_body = Some no_person_json
  /\ person_object no_person_json = None
  /\ snd (scrape_linkedin_profile (sample_env sample_url no_person_body) sample_url false [])
     = Err (missing_person_error no_person_json).
Proof.
  assert (H1 : http_get (sample_env sample_url no_person_body)
                 (profile_request (sample_env sample_url no_person_body) sample_url false)
               = Ok no_person_body) by reflexivity.
  assert (H2 : json_loads true no_person_body = Some no_person_json)
    by (vm_compute; reflexivity).
  assert (H3 : person_object no_person_json = None) by reflexivity.
  split; [exact H1|]. split; [exact H2|]. split; [exact H3|].
  exact (scrape_without_person_raises _ _ _ _ _ _ H1 H2 H3).
Defined.

(** ** ice_breaker.py *)

(** C7: a successful [ice_break_with] returns the chain's [Summary] for
    the cleaned document together with [linkedin_data.get(photoUrl)]: the
    value when the key is present, None otherwise. *)
Theorem ice_break_with_returns_photo_url (e : env) (name : string)
  (l : list ext_call) (s : Summary) (p : option json) :
  run (ice_break_with e name) = (l, Ok (s, p)) ->
  exists url l1 d l2,
    run (lookup e name) = (l1, Ok url)
    /\ scrape_linkedin_profile e url false l1 = (l2, Ok d)
    /\ snd (summary_chain e (JObj d) l2) = Ok s
    /\ p = dict_get d "photoUrl".
Proof.
  unfold run, ice_break_with. unfold bind at 1.
  destruct (lookup e name []) as [l1 [url|x]] eqn:Hl; [|discriminate].
  unfold bind at 1.
  destruct (scrape_linkedin_profile e url false l1) as [l2 [d|x]] eqn:Hs; [|discriminate].
  unfold bind.
  destruct (summary_chain e (JObj d) l2) as [l3 [s'|x]] eqn:Hc; [|discriminate].
  unfold ret. intros H. inversion H; subst.
  exists url, l1, d, l2. rewrite Hc. auto.
Qed.

Lemma ice_break_with_returns_photo_url_witness :
  run (ice_break_with (sample_env sample_url sample_profile_body) "Ada Lovelace")
  = (fst (run (ice_break_with (sample_env sample_url sample_profile_body) "Ada Lovelace")),
     Ok (mkSummary "Ada is an engineer." ["fact1"; "fact2"],
         Some (JStr "https://img.example/ada.png")))
  /\ exists url l1 d l2,
    run (lookup (sample_env sample_url sample_profile_body) "Ada Lovelace") = (l1, Ok url)
    /\ scrape_linkedin_profile (sample_env sample_url sample_profile_body) url false l1
       = (l2, Ok d)
    /\ snd (summary_chain (sample_env sample_url sample_profile_body) (JObj d) l2)
       = Ok (mkSummary "Ada is an engineer." ["fact1"; "fact2"])
    /\ Some (JStr "https://img.example/ada.png") = dict_get d "photoUrl".
Proof.
  assert (H : run (ice_break_with (sample_env sample_url sample_profile_body) "Ada Lovelace")
    = (fst (run (ice_break_with (sample_env sample_url sample_profile_body) "Ada Lovelace")),
       Ok (mkSummary "Ada is an engineer." ["fact1"; "fact2"],
           Some (JStr "https://img.example/ada.png")))) by (vm_compute; reflexivity).
  split; [exact H|].
  exact (ice_break_with_returns_photo_url _ _ _ _ _ H).
Defined.

(** C8: the outcome of the summary chain depends only on its input and on
    the (deterministic) model: it is the same whatever ran before, so two
    invocations in a row give identical results. *)
Theorem summary_chain_deterministic (e : env) (linkedin_data : json)
  (l1 l2 : list ext_call) :
  snd (summary_chain e linkedin_data l1) = snd (summary_chain e linkedin_data l2)
  /\ snd (summary_chain e linkedin_data l1)
     = snd (summary_chain e linkedin_data (fst (summary_chain e linkedin_data l1))).
Proof.
  unfold summary_chain. unfold_monad. simpl.
  destruct (chat_llm e _); split; reflexivity.
Qed.

(** ** Logs of the pipeline steps *)

Lemma scrape_log (e : env) (url : string) (mock : bool) (l : list ext_call) :
  fst (scrape_linkedin_profile e url mock l) = l ++ [HttpGet (profile_request e url mock)].
Proof.
  unfold scrape_linkedin_profile. unfold_monad.
  destruct mock; simpl;
    (destruct (http_get e _) as [body|x]; simpl; [|reflexivity]);
    (destruct (json_loads true body) as [j|]; simpl; [|reflexivity]);
    destruct j; simpl; try reflexivity;
    (destruct (dict_get _ "person") as [p|]; simpl; [|reflexivity]);
    destruct p; reflexivity.
Qed.

Lemma summary_chain_log (e : env) (linkedin_data : json) (l : list ext_call) :
  fst (summary_chain e linkedin_data l)
  = l ++ [ChatCall (summary_prompt (py_str linkedin_data) get_format_instructions)].
Proof.
  unfold summary_chain. unfold_monad. simpl.
  destruct (chat_llm e _); reflexivity.
Qed.

(** ** ice_breaker.py: no check of the lookup result *)

(** C1 (counterexample): when the agent answers with the empty string,
    [ice_break_with] still asks Scrapin.io for [linkedInUrl=''] and the run
    goes on to a result; nothing reports a missing profile. *)
Lemma ice_break_with_empty_url_fetched :
  snd (run (lookup (sample_env EmptyString sample_profile_body) "Ada Lovelace"))
    = Ok EmptyString
  /\ In (HttpGet (mkRequest scrapin_endpoint
                    [("apikey", Some "key"); ("linkedInUrl", Some EmptyString)] 10))
        (fst (run (ice_break_with (sample_env EmptyString sample_profile_body)
                     "Ada Lovelace")))
  /\ snd (run (ice_break_with (sample_env EmptyString sample_profile_body) "Ada Lovelace"))
     = Ok (mkSummary "Ada is an engineer." ["fact1"; "fact2"],
           Some (JStr "https://img.example/ada.png")).
Proof.
  split; [vm_compute; reflexivity|].
  split; [vm_compute; tauto | vm_compute; reflexivity].
Qed.

(** C1 (amended): whatever [lookup] returns, the empty string included, is
    passed to [scrape_linkedin_profile]: right after the lookup the profile
    request for that value is issued. *)
Theorem ice_break_with_fetches_lookup_result (e : env) (name url : string)
  (l : list ext_call) :
  run (lookup e name) = (l, Ok url) ->
  exists rest,
    fst (run (ice_break_with e name)) = l ++ HttpGet (profile_request e url false) :: rest.
Proof.
  intros H. unfold run in *. unfold ice_break_with. unfold bind at 1. rewrite H.
  unfold bind at 1.
  pose proof (scrape_log e url false l) as Hlog.
  destruct (scrape_linkedin_profile e url false l) as [l2 [d|x]] eqn:Hs;
    simpl in Hlog; subst l2.
  - unfold bind. pose proof (summary_chain_log e (JObj d) (l ++ [HttpGet (profile_request e url false)])) as Hc.
    destruct (summary_chain e (JObj d) _) as [l3 [s|x]];
      simpl in Hc; subst l3; simpl;
      eexists; rewrite <- app_assoc; reflexivity.
  - exists []. reflexivity.
Qed.

Lemma ice_break_with_fetches_lookup_result_witness :
  run (lookup (sample_env EmptyString sample_profile_body) "Ada Lovelace")
    = (fst (run (lookup (sample_env EmptyString sample_profile_body) "Ada Lovelace")),
       Ok EmptyString)
  /\ exists rest,
    fst (run (ice_break_with (sample_env EmptyString sample_profile_body) "Ada Lovelace"))
    = fst (run (lookup (sample_env EmptyString sample_profile_body) "Ada Lovelace"))
      ++ HttpGet (profile_request (sample_env EmptyString sample_profile_body)
                    EmptyString false) :: rest.
Proof.
  assert (H : run (lookup (sample_env EmptyString sample_profile_body) "Ada Lovelace")
    = (fst (run (lookup (sample_env EmptyString sample_profile_body) "Ada Lovelace")),
       Ok EmptyString)) by (vm_compute; reflexivity).
  split; [exact H|].
  exact (ice_break_with_fetches_lookup_result _ _ _ _ H).
Defined.

(** ** The lookup agent's iteration budget *)

Lemma count_model_calls_app (l1 l2 : list ext_call) :
  count_model_calls (l1 ++ l2) = count_model_calls l1 + count_model_calls l2.
Proof.
  induction l1 as [|c r IH]; simpl; [reflexivity|].
  destruct c; simpl; rewrite IH; reflexivity.
Qed.

(** Running the lookup tool, or [InvalidTool], calls no model and never
    fails. *)
Lemma lookup_tool_no_model_call (e : env) (a : agent_action) (l : list ext_call) :
  exists l' obs,
    perform_agent_action (tools_for_agent e) a l = (l ++ l', Ok obs)
    /\ count_model_calls l' = 0.
Proof.
  unfold perform_agent_action, tools_for_agent, find_tool. cbn [tool_name tool_func map].
  destruct (String.eqb "crawl Google 4 linkedin profile" (aa_tool a)).
  - unfold get_profile_url_tavily. unfold_monad. do 2 eexists. split; reflexivity.
  - exists []. eexists. rewrite app_nil_r. split; reflexivity.
Qed.

Lemma executor_loop_bound (e : env) (input : string) (budget : nat) :
  forall steps l,
    count_model_calls (fst (executor_loop e (tools_for_agent e) input budget steps l))
    <= count_model_calls l + budget.
Proof.
  induction budget as [|b IH]; intros steps l; simpl; [lia|].
  unfold plan_step. unfold_monad.
  destruct (agent_plan e input steps) as [[a|out lg]|x]; simpl.
  - destruct (lookup_tool_no_model_call e a (l ++ [AgentModelCall steps]))
      as [l' [obs [Hp Hc]]].
    rewrite Hp.
    specialize (IH (steps ++ [(a, obs)]) ((l ++ [AgentModelCall steps]) ++ l')).
    rewrite !count_model_calls_app in IH. simpl in IH. lia.
  - rewrite count_model_calls_app. simpl. lia.
  - destruct x; simpl; rewrite count_model_calls_app; simpl; lia.
Qed.

Lemma executor_loop_always_action (e : env) (input : string)
  (Hact : forall steps, exists a, agent_plan e input steps = Ok (AgentActionStep a))
  (budget : nat) :
  forall steps l,
    snd (executor_loop e (tools_for_agent e) input budget steps l) = Ok stopped_output
    /\ count_model_calls (fst (executor_loop e (tools_for_agent e) input budget steps l))
       = count_model_calls l + budget.
Proof.
  induction budget as [|b IH]; intros steps l; simpl; [split; [reflexivity | lia]|].
  unfold plan_step. unfold_monad.
  destruct (Hact steps) as [a Ha]. rewrite Ha.
  destruct (lookup_tool_no_model_call e a (l ++ [AgentModelCall steps]))
    as [l' [obs [Hp Hc]]].
  rewrite Hp.
  destruct (IH (steps ++ [(a, obs)]) ((l ++ [AgentModelCall steps]) ++ l')) as [H1 H2].
  split; [exact H1|].
  rewrite H2, !count_model_calls_app. simpl. lia.
Qed.

(** C2 (counterexample): with a model that never gives a final answer,
    [lookup] does not fail: after 15 model calls it returns the text
    [Agent stopped due to iteration limit or time limit.] as the URL. *)
Lemma lookup_never_final_returns_stopped_text :
  snd (run (lookup always_search_env "Ada Lovelace")) = Ok stopped_output
  /\ count_model_calls (fst (run (lookup always_search_env "Ada Lovelace"))) = 15.
Proof.
  split; vm_compute; reflexivity.
Qed.

(** C2 (amended): the lookup agent's executor never makes more than its
    [max_iterations] model calls; with a model that always emits an action
    it makes exactly [max_iterations] calls and then returns the fixed
    stopped text instead of failing; [lookup] fixes [max_iterations] to
    the library default 15. *)
Theorem lookup_executor_budget (e : env) (input : string) (n : nat) :
  count_model_calls (fst (run (agent_executor_invoke e (tools_for_agent e) n input))) <= n
  /\ ((forall steps, exists a, agent_plan e input steps = Ok (AgentActionStep a)) ->
      snd (run (agent_executor_invoke e (tools_for_agent e) n input)) = Ok stopped_output
      /\ count_model_calls (fst (run (agent_executor_invoke e (tools_for_agent e) n input)))
         = n)
  /\ (forall name,
        lookup e name = agent_executor_invoke e (tools_for_agent e) 15 (lookup_task name)).
Proof.
  split; [|split].
  - unfold run, agent_executor_invoke. apply (executor_loop_bound e input n [] []).
  - intros Hact. unfold run, agent_executor_invoke.
    exact (executor_loop_always_action e input Hact n [] []).
  - intros name. reflexivity.
Qed.

Lemma lookup_executor_budget_witness :
  (forall steps, exists a,
     agent_plan always_search_env (lookup_task "Ada Lovelace") steps
     = Ok (AgentActionStep a))
  /\ snd (run (agent_executor_invoke always_search_env (tools_for_agent always_search_env)
                 1 (lookup_task "Ada Lovelace"))) = Ok stopped_output
  /\ count_model_calls
       (fst (run (agent_executor_invoke always_search_env (tools_for_agent always_search_env)
                    1 (lookup_task "Ada Lovelace")))) = 1.
Proof.
  assert (Hact : forall steps, exists a,
            agent_plan always_search_env (lookup_task "Ada Lovelace") steps
            = Ok (AgentActionStep a))
    by (intros steps; eexists; reflexivity).
  split; [exact Hact|].
  exact (proj1 (proj2 (lookup_executor_budget always_search_env
                         (lookup_task "Ada Lovelace") 1)) Hact).
Defined.

(** ** output_parsers.py: the extractor *)

Lemma parse_partial_json_cases (s : string) :
  (exists v, parse_partial_json s = Ok v) \/ parse_partial_json s = Err JSONDecodeError.
Proof.
  unfold parse_partial_json.
  destruct (json_loads_chars false (list_ascii_of_string s)) as [v|]; [left; eauto|].
  destruct (partial_scan (list_ascii_of_string s) [] [] false false)
    as [[[[chunks stack] in_str] escaped]|]; [|left; eauto].
  match goal with |- context [partial_retry ?c ?st] => destruct (partial_retry c st) as [v|] end;
    [left; eauto | right; reflexivity].
Qed.

Lemma parse_json_markdown_cases (s : string) :
  (exists v, parse_json_markdown s = Ok v) \/ parse_json_markdown s = Err JSONDecodeError.
Proof.
  unfold parse_json_markdown, parse_json_text.
  destruct (parse_partial_json_cases
              (custom_parser (py_strip_by is_json_strip_char s))) as [[v ->] | ->];
    [left; eauto|].
  apply parse_partial_json_cases.
Qed.

(** [JsonOutputParser.parse_result] either decodes a value or raises
    [Invalid json output] carrying the stripped text. *)
Lemma json_parse_result_cases (text : string) :
  (exists v, json_parse_result text = Ok v)
  \/ json_parse_result text = Err (OutputParserException InvalidJson (py_strip text)).
Proof.
  unfold json_parse_result.
  destruct (parse_json_markdown_cases (py_strip text)) as [[v ->] | ->];
    [left; eauto | right; reflexivity].
Qed.

Lemma validate_str_items_ok (loc : list loc_item) (xs : list json) :
  forall i ss, validate_str_items loc i xs = inr ss -> xs = map JStr ss.
Proof.
  induction xs as [|x r IH]; intros i ss H; simpl in H.
  - inversion H. reflexivity.
  - destruct x; simpl in H;
      destruct (validate_str_items loc (S i) r) eqn:Hr; try discriminate.
    inversion H; subst. simpl. f_equal. eapply IH. exact Hr.
Qed.

Lemma validate_field_str_ok (d : list (string * json)) (k x : string) :
  validate_field validate_str d k = inr x -> dict_get d k = Some (JStr x).
Proof.
  unfold validate_field. destruct (dict_get d k) as [v|]; [|discriminate].
  destruct v; simpl; try discriminate. intros H. inversion H. reflexivity.
Qed.

Lemma validate_field_str_list_ok (d : list (string * json)) (k : string)
  (ss : list string) :
  validate_field validate_str_list d k = inr ss -> dict_get d k = Some (JArr (map JStr ss)).
Proof.
  unfold validate_field. destruct (dict_get d k) as [v|]; [|discriminate].
  destruct v; simpl; try discriminate. intros H.
  apply validate_str_items_ok in H. subst. reflexivity.
Qed.

(** What pydantic accepts comes field by field from the decoded dict. *)
Lemma summary_model_validate_ok (obj : json) (s : Summary) :
  summary_model_validate obj = inr s ->
  exists d, obj = JObj d
    /\ dict_get d "summary" = Some (JStr (summary s))
    /\ dict_get d "facts" = Some (JArr (map JStr (facts s))).
Proof.
  destruct obj as [| | | | | |d]; simpl; try discriminate.
  destruct (validate_field validate_str d "summary") as [e1|x] eqn:H1;
    destruct (validate_field validate_str_list d "facts") as [e2|ss] eqn:H2;
    try discriminate.
  intros H. inversion H; subst. exists d. simpl.
  split; [reflexivity|].
  split; [apply validate_field_str_ok | apply validate_field_str_list_ok]; assumption.
Qed.












(** C5 (counterexample): for JSON with a wrongly typed field the
    exception carries [json.dumps] of the decoded value, which is not the
    raw response. *)
Lemma invalid_field_carries_dumped_json :
  summary_output_parser int_summary_response
  = Err (OutputParserException
           (FailedToParse [mkValidationError [LKey "summary"] "string_type"])
           (qt "{~summary~: 1, ~facts~: []}"))
  /\ qt "{~summary~: 1, ~facts~: []}" <> int_summary_response.
Proof.
  split; [vm_compute; reflexivity|].
  vm_compute. intros H. discriminate H.
Qed.

(** C5 (amended): the extractor either returns a [Summary] whose fields
    are exactly the [summary] and [facts] entries of the decoded JSON dict,
    or raises [OutputParserException]: with the stripped response when no
    JSON could be decoded, with [json.dumps] of the decoded value when
    validation failed. *)
Theorem summary_output_parser_outcomes (text : string) :
  (forall s, summary_output_parser text = Ok s ->
     exists d, json_parse_result text = Ok (JObj d)
       /\ dict_get d "summary" = Some (JStr (summary s))
       /\ dict_get d "facts" = Some (JArr (map JStr (facts s))))
  /\ (forall x, summary_output_parser text = Err x ->
       (json_parse_result text = Err x
        /\ x = OutputParserException InvalidJson (py_strip text))
       \/ (exists obj errs, json_parse_result text = Ok obj
             /\ summary_model_validate obj = inl errs
             /\ x = OutputParserException (FailedToParse errs) (json_dumps obj))).
Proof.
  unfold summary_output_parser.
  destruct (json_parse_result_cases text) as [[v Hv] | Hv]; rewrite Hv.
  - destruct (summary_model_validate v) as [errs|s] eqn:Hm; split.
    + intros s H. discriminate.
    + intros x H. inversion H; subst. right. exists v, errs. auto.
    + intros s' H. inversion H; subst.
      destruct (summary_model_validate_ok _ _ Hm) as [d [-> [H1 H2]]].
      exists d. auto.
    + intros x H. discriminate.
  - split.
    + intros s H. discriminate.
    + intros x H. inversion H; subst. left. auto.
Qed.

(** * Further properties of the pipeline *)

(** ** Helper lemmas *)

Lemma count_search_calls_app (l1 l2 : list ext_call) :
  count_search_calls (l1 ++ l2) = count_search_calls l1 + count_search_calls l2.
Proof.
  induction l1 as [|c r IH]; simpl; [reflexivity|].
  destruct c; simpl; rewrite IH; reflexivity.
Qed.

(** The lookup tool, or [InvalidTool], logs at most one search and no
    model call. *)
Lemma lookup_tool_log (e : env) (a : agent_action) (l : list ext_call) :
  exists l' obs,
    perform_agent_action (tools_for_agent e) a l = (l ++ l', Ok obs)
    /\ count_model_calls l' = 0 /\ count_search_calls l' <= 1.
Proof.
  unfold perform_agent_action, tools_for_agent, find_tool. cbn [tool_name tool_func map].
  destruct (String.eqb "crawl Google 4 linkedin profile" (aa_tool a)).
  - unfold get_profile_url_tavily. unfold_monad. do 2 eexists.
    split; [reflexivity|]. simpl. split; [reflexivity | lia].
  - exists []. eexists. rewrite app_nil_r. split; [reflexivity|]. simpl. lia.
Qed.

Lemma executor_loop_search_bound (e : env) (input : string) (budget : nat) :
  forall steps l,
    count_search_calls (fst (executor_loop e (tools_for_agent e) input budget steps l))
    + count_model_calls l
    <= count_model_calls (fst (executor_loop e (tools_for_agent e) input budget steps l))
       + count_search_calls l.
Proof.
  induction budget as [|b IH]; intros steps l; simpl; [lia|].
  unfold plan_step. unfold_monad.
  destruct (agent_plan e input steps) as [[a|out lg]|x]; simpl.
  - destruct (lookup_tool_log e a (l ++ [AgentModelCall steps]))
      as [l' [obs [Hp [Hc Hs]]]].
    rewrite Hp.
    specialize (IH (steps ++ [(a, obs)]) ((l ++ [AgentModelCall steps]) ++ l')).
    rewrite !count_model_calls_app, !count_search_calls_app in IH. simpl in IH.
    lia.
  - rewrite count_model_calls_app, count_search_calls_app. simpl. lia.
  - destruct x; simpl; rewrite count_model_calls_app, count_search_calls_app; simpl; lia.
Qed.

Lemma filter_idem {A : Type} (f : A -> bool) (l : list A) :
  filter f (filter f l) = filter f l.
Proof.
  induction l as [|x r IH]; simpl; [reflexivity|].
  destruct (f x) eqn:Hx; simpl; [rewrite Hx, IH|]; exact IH || reflexivity.
Qed.

Lemma existsb_keys_dict_set (d : list (string * json)) (k x : string) (v : json) :
  existsb (String.eqb x) (map fst (dict_set d k v))
  = existsb (String.eqb x) (map fst d) || String.eqb x k.
Proof.
  induction d as [|[k' v'] r IH]; simpl.
  - rewrite orb_false_r. reflexivity.
  - destruct (String.eqb k k') eqn:Hk; simpl.
    + apply String.eqb_eq in Hk. subst k'.
      destruct (String.eqb x k); simpl; rewrite ?orb_true_r, ?orb_false_r; reflexivity.
    + rewrite IH. rewrite orb_assoc. reflexivity.
Qed.

Lemma nodup_keys_dict_set (d : list (string * json)) (k : string) (v : json) :
  nodup_keys (map fst d) = true -> nodup_keys (map fst (dict_set d k v)) = true.
Proof.
  induction d as [|[k' v'] r IH]; simpl; [reflexivity|].
  intros H. apply andb_prop in H as [H1 H2].
  destruct (String.eqb k k') eqn:Hk; simpl.
  - apply String.eqb_eq in Hk. subst k'. rewrite H1, H2. reflexivity.
  - rewrite existsb_keys_dict_set, IH by exact H2.
    apply negb_true_iff in H1. rewrite H1. simpl.
    rewrite String.eqb_sym, Hk. reflexivity.
Qed.

Lemma values_unique_dict_set (d : list (string * json)) (k : string) (v : json) :
  forallb (fun '(_, x) => keys_unique x) d = true -> keys_unique v = true ->
  forallb (fun '(_, x) => keys_unique x) (dict_set d k v) = true.
Proof.
  induction d as [|[k' v'] r IH]; simpl; intros H Hv.
  - rewrite Hv. reflexivity.
  - apply andb_prop in H as [H1 H2].
    destruct (String.eqb k k'); simpl; rewrite ?Hv, ?H1, ?H2, ?IH; auto.
Qed.

Lemma forallb_rev {A : Type} (f : A -> bool) (l : list A) :
  forallb f (rev l) = forallb f l.
Proof.
  induction l as [|x r IH]; simpl; [reflexivity|].
  rewrite forallb_app, IH. simpl. rewrite andb_true_r, andb_comm. reflexivity.
Qed.

Lemma parse_number_scalar (s : list ascii) (v : json) (r : list ascii) :
  parse_number s = Some (v, r) -> keys_unique v = true.
Proof.
  unfold parse_number.
  repeat match goal with
         | |- context [match ?x with _ => _ end] => destruct x
         end;
    intros H; try discriminate; inversion H; reflexivity.
Qed.

(** The decoder builds every dict with [dict_set], so no dict it returns
    has a duplicate key. *)
Lemma parse_keys_unique (strict : bool) (f : nat) :
  (forall s v r, parse_value strict f s = Some (v, r) -> keys_unique v = true)
  /\ (forall acc s v r, forallb keys_unique acc = true ->
        parse_elems strict f acc s = Some (v, r) -> keys_unique v = true)
  /\ (forall acc s v r,
        nodup_keys (map fst acc) && forallb (fun '(_, x) => keys_unique x) acc = true ->
        parse_members strict f acc s = Some (v, r) -> keys_unique v = true).
Proof.
  induction f as [|f [IH1 [IH2 IH3]]].
  - repeat split; intros; simpl in *; discriminate.
  - split; [|split].
    + intros s v r H. simpl in H.
      destruct s as [|c rest]; [discriminate|].
      destruct (Ascii.eqb c dquote).
      { destruct (scan_string strict [] rest) as [[x r']|]; inversion H; reflexivity. }
      destruct (Ascii.eqb c "{"%char).
      { destruct (skip_ws rest) as [|c1 r2]; [discriminate|].
        destruct (Ascii.eqb c1 "}"%char); [inversion H; reflexivity|].
        exact (IH3 [] _ _ _ eq_refl H). }
      destruct (Ascii.eqb c "["%char).
      { destruct (skip_ws rest) as [|c1 r2]; [discriminate|].
        destruct (Ascii.eqb c1 "]"%char); [inversion H; reflexivity|].
        exact (IH2 [] _ _ _ eq_refl H). }
      repeat match type of H with
             | context [if ?b then _ else _] => destruct b
             end;
        try (inversion H; reflexivity).
      all: destruct (parse_number (c :: rest)) as [[v' r']|] eqn:Hn;
        [inversion H; subst; exact (parse_number_scalar _ _ _ Hn)|];
        repeat match type of H with
               | context [if ?b then _ else _] => destruct b
               end; inversion H; reflexivity.
    + intros acc s v r Hacc H. simpl in H.
      destruct (parse_value strict f s) as [[x r1]|] eqn:Hx; [|discriminate].
      pose proof (IH1 _ _ _ Hx) as Hxu.
      destruct (skip_ws r1) as [|c r']; [discriminate|].
      destruct (Ascii.eqb c "]"%char).
      { inversion H; subst. simpl. rewrite forallb_app, forallb_rev. simpl. rewrite Hxu, Hacc. reflexivity. }
      destruct (Ascii.eqb c ","%char); [|discriminate].
      refine (IH2 (x :: acc) _ _ _ _ H). simpl. rewrite Hxu, Hacc. reflexivity.
    + intros acc s v r Hacc H. simpl in H.
      apply andb_prop in Hacc as [Hk Hvals].
      destruct s as [|c rest]; [discriminate|].
      destruct (Ascii.eqb c dquote); [|discriminate].
      destruct (scan_string strict [] rest) as [[k r1]|]; [|discriminate].
      destruct (skip_ws r1) as [|c2 r2]; [discriminate|].
      destruct (Ascii.eqb c2 ":"%char); [|discriminate].
      destruct (parse_value strict f (skip_ws r2)) as [[x r3]|] eqn:Hx; [|discriminate].
      pose proof (IH1 _ _ _ Hx) as Hxu.
      assert (Hacc' : nodup_keys (map fst (dict_set acc k x))
                      && forallb (fun '(_, y) => keys_unique y) (dict_set acc k x) = true).
      { rewrite nodup_keys_dict_set, values_unique_dict_set; auto. }
      destruct (skip_ws r3) as [|c4 r4]; [discriminate|].
      destruct (Ascii.eqb c4 "}"%char); [inversion H; subst; exact Hacc'|].
      destruct (Ascii.eqb c4 ","%char); [|discriminate].
      exact (IH3 _ _ _ _ Hacc' H).
Qed.

Lemma json_loads_keys_unique (strict : bool) (s : string) (v : json) :
  json_loads strict s = Some v -> keys_unique v = true.
Proof.
  unfold json_loads, json_loads_chars.
  destruct (parse_value _ _ _) as [[x r]|] eqn:H; [|discriminate].
  destruct (skip_ws r); [|discriminate]. intros E. inversion E; subst.
  exact (proj1 (parse_keys_unique _ _) _ _ _ H).
Qed.

Lemma dict_get_keys_unique (d : list (string * json)) (k : string) (v : json) :
  forallb (fun '(_, x) => keys_unique x) d = true -> dict_get d k = Some v ->
  keys_unique v = true.
Proof.
  induction d as [|[k' v'] r IH]; simpl; [discriminate|].
  intros H. apply andb_prop in H as [H1 H2].
  destruct (String.eqb k k'); [intros E; inversion E; subst; exact H1 | exact (IH H2)].
Qed.

(** The [person] dict of a decoded body has distinct keys. *)
Lemma person_object_nodup (s : string) (j : json) (p : list (string * json)) :
  json_loads true s = Some j -> person_object j = Some p -> nodup_keys (map fst p) = true.
Proof.
  intros Hj Hp. apply json_loads_keys_unique in Hj.
  destruct j as [| | | | | |d]; try discriminate. simpl in Hp.
  destruct (dict_get d "person") as [[| | | | | |p']|] eqn:Hg; try discriminate.
  inversion Hp; subst. simpl in Hj. apply andb_prop in Hj as [_ Hvals].
  pose proof (dict_get_keys_unique _ _ _ Hvals Hg) as Hu. simpl in Hu.
  apply andb_prop in Hu as [Hu _]. exact Hu.
Qed.

Lemma dict_get_clean_absent (r : list (string * json)) (k : string) :
  existsb (String.eqb k) (map fst r) = false -> dict_get (clean_person r) k = None.
Proof.
  induction r as [|[k' v'] r IH]; simpl; [reflexivity|].
  intros H. apply orb_false_iff in H as [H1 H2].
  unfold clean_person in *. simpl.
  destruct (negb (is_empty_value v') && _); simpl; [rewrite H1|]; exact (IH H2).
Qed.

(** Reading a key of the cleaned dict. *)
Lemma clean_person_get_aux (p : list (string * json)) (k : string) :
  nodup_keys (map fst p) = true ->
  dict_get (clean_person p) k =
  if String.eqb k "certifications" then None
  else match dict_get p k with
       | Some v => if is_empty_value v then None else Some v
       | None => None
       end.
Proof.
  induction p as [|[k' v'] r IH]; simpl; intros H.
  - destruct (String.eqb k "certifications"); reflexivity.
  - apply andb_prop in H as [H1 H2]. apply negb_true_iff in H1.
    specialize (IH H2).
    unfold clean_person in *. simpl. rewrite orb_false_r.
    destruct (String.eqb k k') eqn:Hkk.
    + apply String.eqb_eq in Hkk. subst k'.
      assert (Habs : dict_get (filter (fun '(k0, v) =>
                 negb (is_empty_value v) && negb (existsb (String.eqb k0) ["certifications"])) r) k
                     = None) by exact (dict_get_clean_absent r k H1).
      destruct (is_empty_value v') eqn:He; destruct (String.eqb k "certifications") eqn:Hc;
        simpl; rewrite ?String.eqb_refl; try exact Habs; reflexivity.
    + destruct (negb (is_empty_value v') && negb (String.eqb k' "certifications"));
        simpl; rewrite ?Hkk; exact IH.
Qed.

Lemma is_empty_value_falsy (v : json) :
  is_empty_value v = true -> py_truthy v = false.
Proof.
  intros H. apply is_empty_value_spec in H as [-> | [-> | ->]]; reflexivity.
Qed.

Lemma validate_str_items_map (loc : list loc_item) (ss : list string) :
  forall i, validate_str_items loc i (map JStr ss) = inr ss.
Proof.
  induction ss as [|x r IH]; intros i; simpl; [reflexivity|].
  rewrite IH. reflexivity.
Qed.

Lemma validate_str_items_errors (loc : list loc_item) (xs : list json) :
  forall i, non_str_indices i xs <> [] ->
  validate_str_items loc i xs
  = inl (map (fun j => mkValidationError (loc ++ [LIdx j]) "string_type")
             (non_str_indices i xs)).
Proof.
  induction xs as [|x r IH]; intros i H; simpl in *; [contradiction|].
  destruct (non_str_indices (S i) r) eqn:Hr.
  - assert (Hok : exists ss, validate_str_items loc (S i) r = inr ss).
    { clear IH H. revert i Hr. induction r as [|y r' IHr]; intros i Hr; simpl in *.
      - eexists; reflexivity.
      - destruct y; try discriminate.
        destruct (IHr (S i) Hr) as [ss Hss]. rewrite Hss. eexists; reflexivity. }
    destruct Hok as [ss Hss]. rewrite Hss.
    destruct x; simpl; try reflexivity. exfalso; apply H; reflexivity.
  - rewrite (IH (S i)) by (rewrite Hr; discriminate). rewrite Hr.
    destruct x; reflexivity.
Qed.

Lemma starts_with_split (w s : list ascii) :
  starts_with w s = true -> s = w ++ skipn (length w) s.
Proof.
  revert s; induction w as [|c w IH]; intros [|d s] H; simpl in *; try discriminate;
    try reflexivity.
  apply andb_prop in H as [Hc H]. apply Ascii.eqb_eq in Hc. subst d.
  f_equal. exact (IH s H).
Qed.

Lemma starts_with_app_r (w s x : list ascii) :
  starts_with w s = true -> starts_with w (s ++ x) = true.
Proof.
  revert s; induction w as [|c w IH]; intros [|d s] H; simpl in *; try discriminate;
    try reflexivity.
  apply andb_prop in H as [Hc H]. rewrite Hc. simpl. exact (IH s H).
Qed.

Lemma find_none_intro {A} (f : A -> bool) (l : list A) :
  (forall x, In x l -> f x = false) -> find f l = None.
Proof.
  induction l as [|x l IH]; simpl; intros H; [reflexivity|].
  rewrite (H x (or_introl eq_refl)). apply IH. intros y Hy. exact (H y (or_intror Hy)).
Qed.

Section SpanCodes.
Variable ws : list (list ascii).
Hypothesis ws_nonempty : forall w, In w ws -> w <> [].

Lemma span_codes_split (fuel : nat) (s : list ascii) :
  s = fst (span_codes ws fuel s) ++ snd (span_codes ws fuel s).
Proof.
  revert s; induction fuel as [|f IH]; intros s; simpl; [reflexivity|].
  destruct (find (fun w => starts_with w s) ws) as [w|] eqn:Hf; [|reflexivity].
  apply find_some in Hf as [_ Hw].
  specialize (IH (skipn (length w) s)).
  destruct (span_codes ws f (skipn (length w) s)) as [a b]. simpl in *.
  rewrite <- app_assoc, <- IH. exact (starts_with_split w s Hw).
Qed.

Lemma span_codes_no_match (fuel : nat) (s : list ascii) :
  find (fun w => starts_with w s) ws = None -> snd (span_codes ws fuel s) = s.
Proof. destruct fuel; simpl; intros H; [reflexivity|]. rewrite H. reflexivity. Qed.

Lemma span_codes_rest (fuel : nat) (s : list ascii) :
  length s <= fuel ->
  find (fun w => starts_with w (snd (span_codes ws fuel s))) ws = None.
Proof.
  revert s; induction fuel as [|f IH]; intros s Hlen; simpl.
  - destruct s; [|simpl in Hlen; lia].
    apply find_none_intro. intros [|c w] Hw; [exfalso; exact (ws_nonempty _ Hw eq_refl)|].
    reflexivity.
  - destruct (find (fun w => starts_with w s) ws) as [w|] eqn:Hf; [|exact Hf].
    apply find_some in Hf as [Hin Hw].
    specialize (IH (skipn (length w) s)).
    destruct (span_codes ws f (skipn (length w) s)) as [a b]. simpl in *. apply IH.
    rewrite length_skipn.
    destruct w as [|c w]; [exfalso; exact (ws_nonempty _ Hin eq_refl)|].
    simpl. lia.
Qed.

Lemma no_match_prefix (s x : list ascii) :
  find (fun w => starts_with w (s ++ x)) ws = None ->
  find (fun w => starts_with w s) ws = None.
Proof.
  intros H. apply find_none_intro. intros w Hw.
  destruct (starts_with w s) eqn:Hs; [|reflexivity].
  apply (starts_with_app_r w s x) in Hs.
  apply (find_none _ _ H) in Hw. congruence.
Qed.
End SpanCodes.

Lemma py_space_bytes_nonempty (w : list ascii) : In w py_space_bytes -> w <> [].
Proof.
  intros Hw. assert (Hall : forallb (fun w => negb (length w =? 0)%nat) py_space_bytes = true)
    by reflexivity.
  rewrite forallb_forall in Hall. specialize (Hall w Hw).
  destruct w; [discriminate | congruence].
Qed.

Lemma rev_py_space_bytes_nonempty (w : list ascii) :
  In w (map (@rev ascii) py_space_bytes) -> w <> [].
Proof.
  intros Hw. apply in_map_iff in Hw as [v [<- Hv]].
  intros H. apply (py_space_bytes_nonempty v Hv).
  rewrite <- (rev_involutive v), H. reflexivity.
Qed.

(** The bytes [py_strip] keeps: what is left of the input once the
    leading whitespace and then the trailing whitespace are dropped. *)
Lemma py_strip_shape (s : string) :
  exists t,
    py_strip s = string_of_list_ascii (rev t)
    /\ find (fun w => starts_with w (rev t)) py_space_bytes = None
    /\ find (fun w => starts_with w t) (map (@rev ascii) py_space_bytes) = None.
Proof.
  unfold py_strip.
  set (cs := list_ascii_of_string s).
  set (l := snd (span_codes py_space_bytes (length cs) cs)).
  set (t := snd (span_codes (map (@rev ascii) py_space_bytes) (length l) (rev l))).
  exists t. split; [reflexivity|].
  assert (Hl : find (fun w => starts_with w l) py_space_bytes = None)
    by (apply span_codes_rest; [exact py_space_bytes_nonempty | lia]).
  assert (Ht : find (fun w => starts_with w t) (map (@rev ascii) py_space_bytes) = None)
    by (apply span_codes_rest; [exact rev_py_space_bytes_nonempty | rewrite length_rev; lia]).
  split; [|exact Ht].
  pose proof (span_codes_split (map (@rev ascii) py_space_bytes) (length l) (rev l)) as Hsp.
  fold t in Hsp.
  assert (Hl' : l = rev t ++ rev (fst (span_codes (map (@rev ascii) py_space_bytes)
                                              (length l) (rev l)))).
  { rewrite <- rev_app_distr, <- Hsp, rev_involutive. reflexivity. }
  rewrite Hl' in Hl. exact (no_match_prefix _ _ _ Hl).
Qed.

Lemma py_strip_idem (s : string) : py_strip (py_strip s) = py_strip s.
Proof.
  destruct (py_strip_shape s) as [t [-> [H1 H2]]].
  unfold py_strip. rewrite list_ascii_of_string_of_list_ascii.
  rewrite (span_codes_no_match _ _ _ H1), rev_involutive.
  rewrite (span_codes_no_match _ _ _ H2). reflexivity.
Qed.

(** ** linkedin.py *)

(** Cleaning is idempotent: the cleaned profile holds nothing that a
    second pass of the comprehension would remove. *)
Theorem clean_person_idempotent (data : list (string * json)) :
  clean_person (clean_person data) = clean_person data.
Proof.
  unfold clean_person. apply filter_idem.
Qed.

(** Every call of [scrape_linkedin_profile], whatever its outcome, sends
    exactly one GET with a 10 second timeout: to Scrapin.io with the API
    key and the profile URL, or in mock mode to the Gist without
    parameters. *)
Theorem scrape_single_request (e : env) (url : string) (l : list ext_call) :
  fst (scrape_linkedin_profile e url false l)
  = l ++ [HttpGet (mkRequest scrapin_endpoint
                     [("apikey", scrapin_api_key e); ("linkedInUrl", Some url)] 10)]
  /\ fst (scrape_linkedin_profile e url true l) = l ++ [HttpGet (mkRequest gist_url [] 10)].
Proof.
  split; [exact (scrape_log e url false l) | exact (scrape_log e url true l)].
Qed.

(** An exception of the request (timeout, connection error) leaves
    [scrape_linkedin_profile] unchanged, after the one request. *)
Theorem scrape_request_error_propagates (e : env) (url : string) (mock : bool)
  (l : list ext_call) (x : exn) :
  http_get e (profile_request e url mock) = Err x ->
  scrape_linkedin_profile e url mock l
  = (l ++ [HttpGet (profile_request e url mock)], Err x).
Proof.
  intros H. unfold scrape_linkedin_profile. unfold_monad. unfold profile_request in *.
  destruct mock; simpl; rewrite H; reflexivity.
Qed.

Lemma scrape_request_error_propagates_witness :
  http_get failing_http_env (profile_request failing_http_env sample_url false)
    = Err timeout_error
  /\ scrape_linkedin_profile failing_http_env sample_url false []
     = ([HttpGet (profile_request failing_http_env sample_url false)], Err timeout_error).
Proof.
  assert (H : http_get failing_http_env (profile_request failing_http_env sample_url false)
              = Err timeout_error) by reflexivity.
  split; [exact H|].
  exact (scrape_request_error_propagates _ _ _ [] _ H).
Defined.

(** A body that is not strict JSON (for example one with a raw line break
    inside a string) makes [scrape_linkedin_profile] raise
    [JSONDecodeError]. *)
Theorem scrape_invalid_json_body (e : env) (url : string) (mock : bool)
  (l : list ext_call) (body : string) :
  http_get e (profile_request e url mock) = Ok body ->
  json_loads true body = None ->
  scrape_linkedin_profile e url mock l
  = (l ++ [HttpGet (profile_request e url mock)], Err JSONDecodeError).
Proof.
  intros H Hj. unfold scrape_linkedin_profile. unfold_monad. unfold profile_request in *.
  destruct mock; simpl; rewrite H; simpl; rewrite Hj; reflexivity.
Qed.

Lemma scrape_invalid_json_body_witness :
  http_get (sample_env sample_url raw_newline_body)
    (profile_request (sample_env sample_url raw_newline_body) sample_url false)
    = Ok raw_newline_body
  /\ json_loads true raw_newline_body = None
  /\ scrape_linkedin_profile (sample_env sample_url raw_newline_body) sample_url false []
     = ([HttpGet (profile_request (sample_env sample_url raw_newline_body) sample_url false)],
        Err JSONDecodeError).
Proof.
  assert (H1 : http_get (sample_env sample_url raw_newline_body)
                 (profile_request (sample_env sample_url raw_newline_body) sample_url false)
               = Ok raw_newline_body) by reflexivity.
  assert (H2 : json_loads true raw_newline_body = None) by (vm_compute; reflexivity).
  split; [exact H1|]. split; [exact H2|].
  exact (scrape_invalid_json_body _ _ _ [] _ H1 H2).
Defined.

(** Reading a key of the cleaned profile: for a dict with distinct keys
    (as [json.loads] builds them) the cleaned dict has the key's value
    unless the key is [certifications] or the value is [], the empty
    string or None. *)
Theorem clean_person_get (p : list (string * json)) (k : string) :
  nodup_keys (map fst p) = true ->
  dict_get (clean_person p) k =
  if String.eqb k "certifications" then None
  else match dict_get p k with
       | Some v => if is_empty_value v then None else Some v
       | None => None
       end.
Proof.
  exact (clean_person_get_aux p k).
Qed.

Lemma clean_person_get_witness :
  nodup_keys (map fst [("photoUrl", JStr EmptyString); ("firstName", JStr "Ada")]) = true
  /\ dict_get (clean_person [("photoUrl", JStr EmptyString); ("firstName", JStr "Ada")])
       "photoUrl" = None.
Proof.
  assert (H : nodup_keys (map fst [("photoUrl", JStr EmptyString); ("firstName", JStr "Ada")])
              = true) by reflexivity.
  split; [exact H|].
  exact (clean_person_get _ "photoUrl" H).
Defined.

(** ** The lookup agent *)

(** A model that answers at its first step ends [lookup] after that one
    model call, with no search, and its answer is returned verbatim. *)
Theorem lookup_first_step_final (e : env) (name out lg : string) :
  agent_plan e (lookup_task name) [] = Ok (AgentFinish out lg) ->
  run (lookup e name) = ([AgentModelCall []], Ok out).
Proof.
  intros H. unfold run, lookup, agent_executor_invoke, default_max_iterations.
  cbn [executor_loop]. unfold plan_step. unfold_monad. rewrite H. reflexivity.
Qed.

Lemma lookup_first_step_final_witness :
  agent_plan (answer_env sample_url) (lookup_task "Ada Lovelace") []
    = Ok (AgentFinish sample_url ("Final Answer: " ++ sample_url)%string)
  /\ run (lookup (answer_env sample_url) "Ada Lovelace") = ([AgentModelCall []], Ok sample_url).
Proof.
  assert (H : agent_plan (answer_env sample_url) (lookup_task "Ada Lovelace") []
              = Ok (AgentFinish sample_url ("Final Answer: " ++ sample_url)%string))
    by reflexivity.
  split; [exact H|].
  exact (lookup_first_step_final _ _ _ _ H).
Defined.

(** One step that names the search tool: after the model call, one Tavily
    search for [tool_input ++ " LinkedIn profile"], whose result is the
    observation given back to the model at the next step. *)
Theorem lookup_step_searches (e : env) (input : string) (b : nat)
  (steps : list (agent_action * string)) (l : list ext_call) (a : agent_action) :
  agent_plan e input steps = Ok (AgentActionStep a) ->
  aa_tool a = "crawl Google 4 linkedin profile" ->
  executor_loop e (tools_for_agent e) input (S b) steps l
  = executor_loop e (tools_for_agent e) input b
      (steps ++ [(a, tavily_search e (aa_tool_input a ++ " LinkedIn profile")%string)])
      (l ++ [AgentModelCall steps; SearchCall (aa_tool_input a ++ " LinkedIn profile")%string]).
Proof.
  intros H Ht. cbn [executor_loop]. unfold plan_step, perform_agent_action.
  unfold_monad. rewrite H. unfold tools_for_agent, find_tool. cbn [tool_name tool_func].
  rewrite Ht, String.eqb_refl. unfold get_profile_url_tavily. unfold_monad.
  cbn [tool_func]. rewrite <- app_assoc. reflexivity.
Qed.

Lemma lookup_step_searches_witness :
  agent_plan (sample_env sample_url sample_profile_body) (lookup_task "Ada Lovelace") []
    = Ok (AgentActionStep (search_action "Ada Lovelace"))
  /\ aa_tool (search_action "Ada Lovelace") = "crawl Google 4 linkedin profile"
  /\ executor_loop (sample_env sample_url sample_profile_body)
       (tools_for_agent (sample_env sample_url sample_profile_body))
       (lookup_task "Ada Lovelace") 1 [] []
     = executor_loop (sample_env sample_url sample_profile_body)
         (tools_for_agent (sample_env sample_url sample_profile_body))
         (lookup_task "Ada Lovelace") 0
         ([] ++ [(search_action "Ada Lovelace",
                  tavily_search (sample_env sample_url sample_profile_body)
                    (aa_tool_input (search_action "Ada Lovelace") ++ " LinkedIn profile"))])
         ([] ++ [AgentModelCall [];
                 SearchCall (aa_tool_input (search_action "Ada Lovelace")
                             ++ " LinkedIn profile")]).
Proof.
  assert (H1 : agent_plan (sample_env sample_url sample_profile_body)
                 (lookup_task "Ada Lovelace") []
               = Ok (AgentActionStep (search_action "Ada Lovelace"))) by reflexivity.
  assert (H2 : aa_tool (search_action "Ada Lovelace") = "crawl Google 4 linkedin profile")
    by reflexivity.
  split; [exact H1|]. split; [exact H2|].
  exact (lookup_step_searches _ _ 0 [] [] _ H1 H2).
Defined.

(** One step that names any other tool: no search is made and the
    observation given back to the model is the [InvalidTool] text; the
    run goes on. *)
Theorem lookup_step_invalid_tool (e : env) (input : string) (b : nat)
  (steps : list (agent_action * string)) (l : list ext_call) (a : agent_action) :
  agent_plan e input steps = Ok (AgentActionStep a) ->
  aa_tool a <> "crawl Google 4 linkedin profile" ->
  executor_loop e (tools_for_agent e) input (S b) steps l
  = executor_loop e (tools_for_agent e) input b
      (steps ++ [(a, (aa_tool a
                     ++ " is not a valid tool, try one of [crawl Google 4 linkedin profile].")%string)])
      (l ++ [AgentModelCall steps]).
Proof.
  intros H Ht. cbn [executor_loop]. unfold plan_step, perform_agent_action.
  unfold_monad. rewrite H. unfold tools_for_agent, find_tool. cbn [tool_name tool_func].
  assert (Hn : String.eqb "crawl Google 4 linkedin profile" (aa_tool a) = false).
  { apply String.eqb_neq. intros E. apply Ht. symmetry. exact E. }
  rewrite Hn. reflexivity.
Qed.

Lemma lookup_step_invalid_tool_witness :
  agent_plan wrong_tool_env (lookup_task "Ada Lovelace") []
    = Ok (AgentActionStep (mkAgentAction "Google Search" "Ada Lovelace" "Action: Google Search"))
  /\ aa_tool (mkAgentAction "Google Search" "Ada Lovelace" "Action: Google Search")
     <> "crawl Google 4 linkedin profile"
  /\ executor_loop wrong_tool_env (tools_for_agent wrong_tool_env)
       (lookup_task "Ada Lovelace") 2 [] []
     = executor_loop wrong_tool_env (tools_for_agent wrong_tool_env)
         (lookup_task "Ada Lovelace") 1
         ([] ++ [(mkAgentAction "Google Search" "Ada Lovelace" "Action: Google Search",
                  (aa_tool (mkAgentAction "Google Search" "Ada Lovelace" "Action: Google Search")
                  ++ " is not a valid tool, try one of [crawl Google 4 linkedin profile].")%string)])
         ([] ++ [AgentModelCall []]).
Proof.
  assert (H1 : agent_plan wrong_tool_env (lookup_task "Ada Lovelace") []
               = Ok (AgentActionStep
                       (mkAgentAction "Google Search" "Ada Lovelace" "Action: Google Search")))
    by reflexivity.
  assert (H2 : aa_tool (mkAgentAction "Google Search" "Ada Lovelace" "Action: Google Search")
               <> "crawl Google 4 linkedin profile") by (simpl; discriminate).
  split; [exact H1|]. split; [exact H2|].
  exact (lookup_step_invalid_tool _ _ 1 [] [] _ H1 H2).
Defined.

(** An error of the model ends the run at once, before any tool runs: a
    reply the ReAct parser rejects becomes a [ValueError] carrying the
    parser's text ([handle_parsing_errors=False]); any other exception
    propagates unchanged. *)
Theorem lookup_step_plan_error (e : env) (tools : list tool) (input : string) (b : nat)
  (steps : list (agent_action * string)) (l : list ext_call) (x : exn) :
  agent_plan e input steps = Err x ->
  executor_loop e tools input (S b) steps l
  = (l ++ [AgentModelCall steps],
     Err (match x with
          | OutputParserException _ t => ValueError (parsing_error_prefix ++ t)
          | _ => x
          end)).
Proof.
  intros H. cbn [executor_loop]. unfold plan_step. unfold_monad. rewrite H.
  destruct x; reflexivity.
Qed.

Lemma lookup_step_plan_error_witness :
  agent_plan unparsable_env (lookup_task "Ada Lovelace") []
    = Err (OutputParserException InvalidJson unparsable_text)
  /\ executor_loop unparsable_env (tools_for_agent unparsable_env)
       (lookup_task "Ada Lovelace") 15 [] []
     = ([] ++ [AgentModelCall []], Err (ValueError (parsing_error_prefix ++ unparsable_text))).
Proof.
  assert (H : agent_plan unparsable_env (lookup_task "Ada Lovelace") []
              = Err (OutputParserException InvalidJson unparsable_text)) by reflexivity.
  split; [exact H|].
  exact (lookup_step_plan_error _ _ _ 14 [] [] _ H).
Defined.

(** [lookup] makes at most one Tavily search per model call, so at most
    15 searches in all. *)
Theorem lookup_search_calls_bounded (e : env) (name : string) :
  count_search_calls (fst (run (lookup e name)))
  <= count_model_calls (fst (run (lookup e name)))
  /\ count_model_calls (fst (run (lookup e name))) <= 15.
Proof.
  unfold run, lookup, agent_executor_invoke, default_max_iterations.
  pose proof (executor_loop_search_bound e (lookup_task name) 15 [] []) as H1.
  pose proof (executor_loop_bound e (lookup_task name) 15 [] []) as H2.
  cbn [count_model_calls count_search_calls] in H1, H2. split; lia.
Qed.

(** ** ice_breaker.py *)

(** When [lookup] fails, [ice_break_with] fails with the same exception
    and sends no profile request and no chat call. *)
Theorem ice_break_with_lookup_error (e : env) (name : string) (l : list ext_call) (x : exn) :
  run (lookup e name) = (l, Err x) -> run (ice_break_with e name) = (l, Err x).
Proof.
  intros H. unfold run in *. unfold ice_break_with. unfold bind at 1. rewrite H. reflexivity.
Qed.

Lemma ice_break_with_lookup_error_witness :
  run (lookup unparsable_env "Ada Lovelace")
    = ([AgentModelCall []], Err (ValueError (parsing_error_prefix ++ unparsable_text)))
  /\ run (ice_break_with unparsable_env "Ada Lovelace")
     = ([AgentModelCall []], Err (ValueError (parsing_error_prefix ++ unparsable_text))).
Proof.
  assert (H : run (lookup unparsable_env "Ada Lovelace")
              = ([AgentModelCall []], Err (ValueError (parsing_error_prefix ++ unparsable_text))))
    by (vm_compute; reflexivity).
  split; [exact H|].
  exact (ice_break_with_lookup_error _ _ _ _ H).
Defined.

(** When the scrape fails (request error, invalid JSON, no [person]
    dict), [ice_break_with] fails with that exception right after the one
    profile request: the chat model is never called. *)
Theorem ice_break_with_scrape_error (e : env) (name url : string) (l : list ext_call)
  (x : exn) :
  run (lookup e name) = (l, Ok url) ->
  snd (scrape_linkedin_profile e url false l) = Err x ->
  run (ice_break_with e name) = (l ++ [HttpGet (profile_request e url false)], Err x).
Proof.
  intros H Hs. unfold run in *. unfold ice_break_with. unfold bind at 1. rewrite H.
  pose proof (scrape_log e url false l) as Hlog. unfold bind.
  destruct (scrape_linkedin_profile e url false l) as [l2 r2]. simpl in Hlog, Hs.
  subst. reflexivity.
Qed.

Lemma ice_break_with_scrape_error_witness :
  run (lookup failing_http_env "Ada Lovelace")
    = (fst (run (lookup failing_http_env "Ada Lovelace")), Ok sample_url)
  /\ snd (scrape_linkedin_profile failing_http_env sample_url false
            (fst (run (lookup failing_http_env "Ada Lovelace")))) = Err timeout_error
  /\ run (ice_break_with failing_http_env "Ada Lovelace")
     = (fst (run (lookup failing_http_env "Ada Lovelace"))
          ++ [HttpGet (profile_request failing_http_env sample_url false)], Err timeout_error).
Proof.
  assert (H1 : run (lookup failing_http_env "Ada Lovelace")
               = (fst (run (lookup failing_http_env "Ada Lovelace")), Ok sample_url))
    by (vm_compute; reflexivity).
  assert (H2 : snd (scrape_linkedin_profile failing_http_env sample_url false
                      (fst (run (lookup failing_http_env "Ada Lovelace")))) = Err timeout_error)
    by (vm_compute; reflexivity).
  split; [exact H1|]. split; [exact H2|].
  exact (ice_break_with_scrape_error _ _ _ _ _ H1 H2).
Defined.

(** A successful [ice_break_with] makes, after the agent's calls, exactly
    one profile request for the agent's answer and one chat call whose
    prompt holds [str()] of the cleaned profile. *)
Theorem ice_break_with_success_log (e : env) (name : string) (l : list ext_call)
  (r : Summary * option json) :
  run (ice_break_with e name) = (l, Ok r) ->
  exists url l1 d,
    run (lookup e name) = (l1, Ok url)
    /\ snd (scrape_linkedin_profile e url false l1) = Ok d
    /\ l = l1 ++ [HttpGet (profile_request e url false);
                  ChatCall (summary_prompt (py_str (JObj d)) get_format_instructions)].
Proof.
  unfold run, ice_break_with. unfold bind at 1.
  destruct (lookup e name []) as [l1 [url|x]] eqn:Hl; [|discriminate].
  unfold bind at 1.
  pose proof (scrape_log e url false l1) as Hlog.
  destruct (scrape_linkedin_profile e url false l1) as [l2 [d|x]] eqn:Hs; [|discriminate].
  simpl in Hlog. subst l2. unfold bind.
  pose proof (summary_chain_log e (JObj d) (l1 ++ [HttpGet (profile_request e url false)]))
    as Hc.
  destruct (summary_chain e (JObj d) _) as [l3 [s|x]]; [|discriminate].
  simpl in Hc. subst l3. unfold ret. intros H. inversion H; subst.
  exists url, l1, d. rewrite Hs. rewrite <- app_assoc. auto.
Qed.

Lemma ice_break_with_success_log_witness :
  run (ice_break_with (sample_env sample_url sample_profile_body) "Ada Lovelace")
  = (fst (run (ice_break_with (sample_env sample_url sample_profile_body) "Ada Lovelace")),
     Ok (mkSummary "Ada is an engineer." ["fact1"; "fact2"],
         Some (JStr "https://img.example/ada.png")))
  /\ exists url l1 d,
    run (lookup (sample_env sample_url sample_profile_body) "Ada Lovelace") = (l1, Ok url)
    /\ snd (scrape_linkedin_profile (sample_env sample_url sample_profile_body) url false l1)
       = Ok d
    /\ fst (run (ice_break_with (sample_env sample_url sample_profile_body) "Ada Lovelace"))
       = l1 ++ [HttpGet (profile_request (sample_env sample_url sample_profile_body) url false);
                ChatCall (summary_prompt (py_str (JObj d)) get_format_instructions)].
Proof.
  assert (H : run (ice_break_with (sample_env sample_url sample_profile_body) "Ada Lovelace")
    = (fst (run (ice_break_with (sample_env sample_url sample_profile_body) "Ada Lovelace")),
       Ok (mkSummary "Ada is an engineer." ["fact1"; "fact2"],
           Some (JStr "https://img.example/ada.png")))) by (vm_compute; reflexivity).
  split; [exact H|].
  exact (ice_break_with_success_log _ _ _ _ H).
Defined.

(** The photo returned by [ice_break_with] is the profile's raw
    [photoUrl] when it is present and is none of [], the empty string and
    None; otherwise it is None. *)
Theorem ice_break_with_photo_from_profile (e : env) (name : string) (l : list ext_call)
  (s : Summary) (p : option json) :
  run (ice_break_with e name) = (l, Ok (s, p)) ->
  exists url body j person,
    snd (run (lookup e name)) = Ok url
    /\ http_get e (profile_request e url false) = Ok body
    /\ json_loads true body = Some j
    /\ person_object j = Some person
    /\ p = match dict_get person "photoUrl" with
           | Some v => if is_empty_value v then None else Some v
           | None => None
           end.
Proof.
  unfold run, ice_break_with. unfold bind at 1.
  destruct (lookup e name []) as [l1 [url|x]] eqn:Hl; [|discriminate].
  unfold bind at 1.
  destruct (scrape_linkedin_profile e url false l1) as [l2 [d|x]] eqn:Hs; [|discriminate].
  unfold bind.
  destruct (summary_chain e (JObj d) l2) as [l3 [s'|x]]; [|discriminate].
  unfold ret. intros H. inversion H; subst.
  destruct (scrape_ok_inv _ _ _ _ _ _ Hs) as [body [j [person [Hg [Hj [Hp ->]]]]]].
  exists url, body, j, person. repeat split; auto.
  rewrite (clean_person_get_aux person "photoUrl" (person_object_nodup _ _ _ Hj Hp)).
  reflexivity.
Qed.

Lemma ice_break_with_photo_from_profile_witness :
  run (ice_break_with (sample_env sample_url no_photo_profile_body) "Ada Lovelace")
  = (fst (run (ice_break_with (sample_env sample_url no_photo_profile_body) "Ada Lovelace")),
     Ok (mkSummary "Ada is an engineer." ["fact1"; "fact2"], None))
  /\ exists url body j person,
    snd (run (lookup (sample_env sample_url no_photo_profile_body) "Ada Lovelace")) = Ok url
    /\ http_get (sample_env sample_url no_photo_profile_body)
         (profile_request (sample_env sample_url no_photo_profile_body) url false) = Ok body
    /\ json_loads true body = Some j
    /\ person_object j = Some person
    /\ None = match dict_get person "photoUrl" with
              | Some v => if is_empty_value v then None else Some v
              | None => None
              end.
Proof.
  assert (H : run (ice_break_with (sample_env sample_url no_photo_profile_body) "Ada Lovelace")
    = (fst (run (ice_break_with (sample_env sample_url no_photo_profile_body) "Ada Lovelace")),
       Ok (mkSummary "Ada is an engineer." ["fact1"; "fact2"], None)))
    by (vm_compute; reflexivity).
  split; [exact H|].
  exact (ice_break_with_photo_from_profile _ _ _ _ _ H).
Defined.

(** ** app.py *)

(** The response of [/process]: [summary_and_facts] is [to_dict] of the
    summary the chain produced for the cleaned profile, [picture_url] is
    the profile's raw [photoUrl] when it is truthy and the placeholder
    image otherwise (missing, empty, None, 0, False, an empty dict), and
    the two other entries are the fixed [Coming soon...] stubs. *)
Theorem process_response (e : env) (form : list (string * string)) (l : list ext_call)
  (resp : json) :
  run (process e form) = (l, Ok resp) ->
  exists s url body j person,
    snd (run (lookup e (match form_get form "name" with Some n => n | None => "None" end)))
      = Ok url
    /\ http_get e (profile_request e url false) = Ok body
    /\ json_loads true body = Some j
    /\ person_object j = Some person
    /\ snd (summary_chain e (JObj (clean_person person)) []) = Ok s
    /\ resp = JObj [("summary_and_facts", to_dict s);
                    ("picture_url",
                     match dict_get person "photoUrl" with
                     | Some v => if py_truthy v then v else JStr placeholder_picture_url
                     | None => JStr placeholder_picture_url
                     end);
                    ("ice_breakers", JObj [("ice_breakers", JArr [JStr "Coming soon..."])]);
                    ("interests", JObj [("topics_of_interest", JArr [JStr "Coming soon..."])])].
Proof.
  unfold run, process. unfold bind at 1. unfold ice_break_with. unfold bind at 1.
  set (name := match form_get form "name" with Some n => n | None => "None" end).
  destruct (lookup e name []) as [l1 [url|x]] eqn:Hl; [|discriminate].
  unfold bind at 1.
  destruct (scrape_linkedin_profile e url false l1) as [l2 [d|x]] eqn:Hs; [|discriminate].
  unfold bind at 1.
  destruct (summary_chain e (JObj d) l2) as [l3 [s|x]] eqn:Hc; [|discriminate].
  unfold ret. intros H. inversion H; subst.
  destruct (scrape_ok_inv _ _ _ _ _ _ Hs) as [body [j [person [Hg [Hj [Hp ->]]]]]].
  exists s, url, body, j, person. repeat split; auto.
  - unfold summary_chain in *. unfold_monad. simpl in *.
    destruct (chat_llm e _); simpl in *; inversion Hc; reflexivity.
  - rewrite (clean_person_get_aux person "photoUrl" (person_object_nodup _ _ _ Hj Hp)).
    simpl. destruct (dict_get person "photoUrl") as [v|]; [|reflexivity].
    destruct (is_empty_value v) eqn:He; simpl; [|reflexivity].
    rewrite (is_empty_value_falsy v He). reflexivity.
Qed.

Lemma process_response_witness :
  run (process (sample_env sample_url no_photo_profile_body) [("name", "Ada Lovelace")])
  = (fst (run (process (sample_env sample_url no_photo_profile_body)
                 [("name", "Ada Lovelace")])),
     Ok (JObj [("summary_and_facts", to_dict (mkSummary "Ada is an engineer." ["fact1"; "fact2"]));
               ("picture_url", JStr placeholder_picture_url);
               ("ice_breakers", JObj [("ice_breakers", JArr [JStr "Coming soon..."])]);
               ("interests", JObj [("topics_of_interest", JArr [JStr "Coming soon..."])])]))
  /\ exists s url body j person,
    snd (run (lookup (sample_env sample_url no_photo_profile_body)
                (match form_get [("name", "Ada Lovelace")] "name" with
                 | Some n => n | None => "None" end)))
      = Ok url
    /\ http_get (sample_env sample_url no_photo_profile_body)
         (profile_request (sample_env sample_url no_photo_profile_body) url false) = Ok body
    /\ json_loads true body = Some j
    /\ person_object j = Some person
    /\ snd (summary_chain (sample_env sample_url no_photo_profile_body)
              (JObj (clean_person person)) []) = Ok s
    /\ JObj [("summary_and_facts", to_dict (mkSummary "Ada is an engineer." ["fact1"; "fact2"]));
             ("picture_url", JStr placeholder_picture_url);
             ("ice_breakers", JObj [("ice_breakers", JArr [JStr "Coming soon..."])]);
             ("interests", JObj [("topics_of_interest", JArr [JStr "Coming soon..."])])]
       = JObj [("summary_and_facts", to_dict s);
               ("picture_url",
                match dict_get person "photoUrl" with
                | Some v => if py_truthy v then v else JStr placeholder_picture_url
                | None => JStr placeholder_picture_url
                end);
               ("ice_breakers", JObj [("ice_breakers", JArr [JStr "Coming soon..."])]);
               ("interests", JObj [("topics_of_interest", JArr [JStr "Coming soon..."])])].
Proof.
  assert (H : run (process (sample_env sample_url no_photo_profile_body)
                     [("name", "Ada Lovelace")])
    = (fst (run (process (sample_env sample_url no_photo_profile_body)
                   [("name", "Ada Lovelace")])),
       Ok (JObj [("summary_and_facts",
                  to_dict (mkSummary "Ada is an engineer." ["fact1"; "fact2"]));
                 ("picture_url", JStr placeholder_picture_url);
                 ("ice_breakers", JObj [("ice_breakers", JArr [JStr "Coming soon..."])]);
                 ("interests", JObj [("topics_of_interest", JArr [JStr "Coming soon..."])])])))
    by (vm_compute; reflexivity).
  split; [exact H|].
  exact (process_response _ _ _ _ H).
Defined.

(** A request without a [name] field runs the whole pipeline for the
    name None, exactly as a request whose [name] is the text None. *)
Theorem process_missing_name (e : env) (form : list (string * string)) :
  form_get form "name" = None -> process e form = process e [("name", "None")].
Proof.
  intros H. unfold process. rewrite H. reflexivity.
Qed.

Lemma process_missing_name_witness :
  form_get [("email", "ada@example.com")] "name" = None
  /\ process (sample_env sample_url sample_profile_body) [("email", "ada@example.com")]
     = process (sample_env sample_url sample_profile_body) [("name", "None")].
Proof.
  assert (H : form_get [("email", "ada@example.com")] "name" = None) by reflexivity.
  split; [exact H|].
  exact (process_missing_name _ _ H).
Defined.

(** ** output_parsers.py *)

(** [to_dict] and validation are inverse: the [summary_and_facts] dict of
    a [Summary] validates back to the same [Summary]. *)
Theorem to_dict_validates (s : Summary) : summary_model_validate (to_dict s) = inr s.
Proof.
  destruct s as [sm fs]. unfold to_dict, summary_model_validate, validate_field. simpl.
  rewrite validate_str_items_map. reflexivity.
Qed.

(** Surrounding whitespace of the model's reply never changes what the
    extractor returns or raises. *)
Theorem summary_output_parser_strip_invariant (text : string) :
  summary_output_parser (py_strip text) = summary_output_parser text
  /\ summary_output_parser spaced_bare_response = Ok engineer_summary.
Proof.
  split; [|vm_compute; reflexivity].
  unfold summary_output_parser, json_parse_result. rewrite py_strip_idem. reflexivity.
Qed.

(** Validation reports every fact that is not a string, with its index,
    in order, when [summary] is a string. *)
Theorem summary_validate_facts_item_errors (d : list (string * json)) (sm : string)
  (xs : list json) :
  dict_get d "summary" = Some (JStr sm) ->
  dict_get d "facts" = Some (JArr xs) ->
  non_str_indices 0 xs <> [] ->
  summary_model_validate (JObj d)
  = inl (map (fun i => mkValidationError [LKey "facts"; LIdx i] "string_type")
             (non_str_indices 0 xs)).
Proof.
  intros Hs Hf Hn. unfold summary_model_validate, validate_field.
  rewrite Hs, Hf. simpl. rewrite (validate_str_items_errors [LKey "facts"] xs 0 Hn).
  reflexivity.
Qed.

Lemma summary_validate_facts_item_errors_witness :
  dict_get [("summary", JStr "Ada"); ("facts", JArr [JStr "f"; JInt 1; JNull])] "summary"
    = Some (JStr "Ada")
  /\ dict_get [("summary", JStr "Ada"); ("facts", JArr [JStr "f"; JInt 1; JNull])] "facts"
     = Some (JArr [JStr "f"; JInt 1; JNull])
  /\ non_str_indices 0 [JStr "f"; JInt 1; JNull] <> []
  /\ summary_model_validate
       (JObj [("summary", JStr "Ada"); ("facts", JArr [JStr "f"; JInt 1; JNull])])
     = inl [mkValidationError [LKey "facts"; LIdx 1] "string_type";
            mkValidationError [LKey "facts"; LIdx 2] "string_type"].
Proof.
  assert (H1 : dict_get [("summary", JStr "Ada"); ("facts", JArr [JStr "f"; JInt 1; JNull])]
                 "summary" = Some (JStr "Ada")) by reflexivity.
  assert (H2 : dict_get [("summary", JStr "Ada"); ("facts", JArr [JStr "f"; JInt 1; JNull])]
                 "facts" = Some (JArr [JStr "f"; JInt 1; JNull])) by reflexivity.
  assert (H3 : non_str_indices 0 [JStr "f"; JInt 1; JNull] <> []) by (simpl; discriminate).
  split; [exact H1|]. split; [exact H2|]. split; [exact H3|].
  exact (summary_validate_facts_item_errors _ _ _ H1 H2 H3).
Defined.

(** ** The [json.dumps] of a summary and [summary_output_parser] *)

Lemma plain_char_facts (c : ascii) :
  plain_char c = true ->
  escape_cp_ascii (N_of_ascii c) = [c] /\ (N_of_ascii c <? 128)%N = true
  /\ Ascii.eqb c dquote = false /\ Ascii.eqb c backslash = false
  /\ (nat_of_ascii c <? 32)%nat = false.
Proof.
  destruct c as [b0 b1 b2 b3 b4 b5 b6 b7];
    destruct b0, b1, b2, b3, b4, b5, b6, b7; vm_compute; intros H;
    first [discriminate H | repeat split].
Qed.

Lemma utf8_decode_plain (l : list ascii) :
  forallb plain_char l = true -> utf8_decode l = map N_of_ascii l.
Proof.
  induction l as [|c r IH]; simpl; [reflexivity|].
  intros H. apply andb_prop in H as [H1 H2].
  destruct (plain_char_facts c H1) as [_ [Hlt _]]. rewrite Hlt, IH by exact H2. reflexivity.
Qed.

Lemma encode_plain (x : string) :
  plain_string x = true -> encode_py_string true x = quoted (lit x).
Proof.
  unfold plain_string, encode_py_string, quoted, lit. intros H.
  rewrite utf8_decode_plain by exact H. rewrite map_map. simpl. f_equal.
  f_equal. induction (list_ascii_of_string x) as [|c r IH]; simpl in *; [reflexivity|].
  apply andb_prop in H as [H1 H2].
  destruct (plain_char_facts c H1) as [He _]. rewrite He, IH by exact H2. reflexivity.
Qed.

Lemma dumps_to_dict (s : Summary) :
  plain_string (summary s) = true -> forallb plain_string (facts s) = true ->
  dumps_chars true (to_dict s)
  = lit "{" ++ quoted (lit "summary") ++ lit ": " ++ quoted (lit (summary s)) ++ lit ", "
    ++ quoted (lit "facts") ++ lit ": ["
    ++ join (lit ", ") (map (fun x => quoted (lit x)) (facts s)) ++ lit "]}".
Proof.
  destruct s as [sm fs]. cbn [summary facts]. intros Hs Hf.
  unfold to_dict. cbn [dumps_chars summary facts map].
  rewrite (encode_plain sm Hs).
  rewrite map_map.
  rewrite (map_ext_in (fun x => dumps_chars true (JStr x)) (fun x => quoted (lit x))).
  2:{ intros a Ha. simpl. apply encode_plain. rewrite forallb_forall in Hf. auto. }
  change (encode_py_string true "summary") with (quoted (lit "summary")).
  change (encode_py_string true "facts") with (quoted (lit "facts")).
  cbn [join]. rewrite <- !app_assoc. reflexivity.
Qed.

Lemma plain_no_dquote (l : list ascii) : forallb plain_char l = true -> no_dquote l = true.
Proof.
  induction l as [|c r IH]; simpl; [reflexivity|].
  intros H. apply andb_prop in H as [H1 H2].
  destruct (plain_char_facts c H1) as [_ [_ [Hq _]]]. rewrite Hq, IH by exact H2. reflexivity.
Qed.

Lemma action_input_key_eq : action_input_key = dquote :: lit "action_input" ++ [dquote; ":"%char].
Proof. reflexivity. Qed.

Lemma key_free_app_no_dquote (p r : list ascii) :
  no_dquote p = true -> key_free (p ++ r) = key_free r.
Proof.
  induction p as [|c p' IH]; [reflexivity|].
  intros H. cbn [no_dquote forallb] in H. apply andb_prop in H as [H1 H2].
  apply negb_true_iff in H1.
  cbn [app key_free]. rewrite action_input_key_eq. cbn [starts_with app].
  rewrite Ascii.eqb_sym, H1. cbn [andb negb]. exact (IH H2).
Qed.

Lemma starts_with_closing (w x : list ascii) (c : ascii) (r : list ascii) :
  no_dquote w = true -> no_dquote x = true ->
  starts_with (w ++ [dquote; ":"%char]) (x ++ dquote :: c :: r) = true -> c = ":"%char.
Proof.
  revert x. induction w as [|a w' IH]; intros x Hw Hx H.
  - destruct x as [|d x']; cbn [starts_with app] in H.
    + rewrite Ascii.eqb_refl, andb_true_r in H. cbn [andb] in H.
      apply Ascii.eqb_eq in H. symmetry. exact H.
    + cbn [no_dquote forallb] in Hx. apply andb_prop in Hx as [Hd _].
      apply negb_true_iff in Hd.
      rewrite Ascii.eqb_sym, Hd in H. discriminate.
  - cbn [no_dquote forallb] in Hw. apply andb_prop in Hw as [Ha Hw'].
    destruct x as [|d x']; cbn [starts_with app] in H.
    + apply negb_true_iff in Ha. rewrite Ha in H. discriminate.
    + cbn [no_dquote forallb] in Hx. apply andb_prop in Hx as [_ Hx'].
      apply andb_prop in H as [_ H]. exact (IH x' Hw' Hx' H).
Qed.

Lemma key_free_quoted (x : list ascii) (c : ascii) (r : list ascii) :
  no_dquote x = true -> c = ","%char \/ c = "]"%char ->
  key_free (quoted x ++ c :: r) = key_free (c :: r).
Proof.
  intros Hx Hc. unfold quoted. cbn [app]. rewrite <- app_assoc. cbn [app key_free].
  assert (Hs : starts_with action_input_key (dquote :: x ++ dquote :: c :: r) = false).
  { destruct (starts_with action_input_key (dquote :: x ++ dquote :: c :: r)) eqn:E;
      [|reflexivity].
    rewrite action_input_key_eq in E. cbn [starts_with app] in E.
    rewrite Ascii.eqb_refl in E. cbn [andb] in E.
    pose proof (starts_with_closing (lit "action_input") _ _ _ eq_refl Hx E) as Hcolon.
    destruct Hc as [-> | ->]; discriminate Hcolon. }
  rewrite Hs. cbn [negb andb]. rewrite key_free_app_no_dquote by exact Hx.
  destruct Hc as [-> | ->]; reflexivity.
Qed.

Lemma key_free_join (fs : list string) :
  forallb plain_string fs = true ->
  key_free (join (lit ", ") (map (fun x => quoted (lit x)) fs) ++ lit "]}") = true.
Proof.
  induction fs as [|x r IH]; intros H; [reflexivity|].
  simpl in H. apply andb_prop in H as [H1 H2].
  destruct r as [|y r'].
  - cbn [map join]. change (lit "]}") with ("]"%char :: lit "}").
    rewrite key_free_quoted; [reflexivity | apply plain_no_dquote; exact H1 | right; reflexivity].
  - change (join (lit ", ") (map (fun x => quoted (lit x)) (x :: y :: r')))
      with (quoted (lit x) ++ lit ", " ++ join (lit ", ") (map (fun x => quoted (lit x)) (y :: r'))).
    rewrite <- !app_assoc.
    change (lit ", " ++ ?l) with (","%char :: " "%char :: l).
    rewrite key_free_quoted; [|apply plain_no_dquote; exact H1 | left; reflexivity].
    change (key_free (","%char :: " "%char :: ?l)) with (key_free l).
    exact (IH H2).
Qed.

Lemma custom_parser_aux_key_free (f : nat) (s : list ascii) :
  key_free s = true -> custom_parser_aux f s = s.
Proof.
  revert s. induction f as [|f IH]; intros s H; [reflexivity|].
  destruct s as [|c r]; [reflexivity|].
  cbn [key_free] in H. apply andb_prop in H as [H1 H2]. apply negb_true_iff in H1.
  cbn [custom_parser_aux]. unfold action_input_match. rewrite H1. rewrite (IH r H2).
  reflexivity.
Qed.

Lemma key_free_dumps (s : Summary) :
  plain_string (summary s) = true -> forallb plain_string (facts s) = true ->
  key_free (dumps_chars true (to_dict s)) = true.
Proof.
  intros Hs Hf. rewrite dumps_to_dict by assumption.
  change (key_free (lit "{" ++ quoted (lit "summary") ++ lit ": " ++ ?r)) with (key_free r).
  change (lit ", " ++ ?l) with (","%char :: " "%char :: l).
  rewrite key_free_quoted; [| apply plain_no_dquote; exact Hs | left; reflexivity].
  change (key_free (","%char :: " "%char :: quoted (lit "facts") ++ lit ": [" ++ ?r))
    with (key_free r).
  exact (key_free_join _ Hf).
Qed.

Lemma scan_string_plain (strict : bool) (l : list ascii) :
  forallb plain_char l = true ->
  forall acc rest,
    scan_string strict acc (l ++ dquote :: rest) = Some (string_of_list_ascii (rev acc ++ l), rest).
Proof.
  induction l as [|c l' IH]; intros H acc rest.
  - cbn [app scan_string]. rewrite Ascii.eqb_refl, app_nil_r. reflexivity.
  - cbn [forallb] in H. apply andb_prop in H as [H1 H2].
    destruct (plain_char_facts c H1) as [_ [_ [Hq [Hb Hlt]]]].
    cbn [app scan_string]. rewrite Hq, Hb, Hlt, andb_false_r.
    rewrite (IH H2). cbn [rev]. rewrite <- app_assoc. reflexivity.
Qed.

Lemma parse_value_plain_string (strict : bool) (f : nat) (x : string) (rest : list ascii) :
  plain_string x = true ->
  parse_value strict (S f) (quoted (lit x) ++ rest) = Some (JStr x, rest).
Proof.
  intros H. unfold quoted. cbn [app]. rewrite <- app_assoc. cbn [app parse_value].
  rewrite Ascii.eqb_refl. rewrite (scan_string_plain strict (lit x) H). cbn [rev app].
  unfold lit. rewrite string_of_list_ascii_of_string. reflexivity.
Qed.

Lemma join_quoted_head (y : string) (r : list string) :
  exists t, join (lit ", ") (map (fun x => quoted (lit x)) (y :: r)) = dquote :: t.
Proof.
  cbn [map]. destruct (map (fun x => quoted (lit x)) r); cbn [join]; unfold quoted;
    eexists; reflexivity.
Qed.

Lemma parse_elems_plain (strict : bool) (fs : list string) :
  fs <> [] -> forallb plain_string fs = true ->
  forall f acc rest, length fs < f ->
  parse_elems strict f acc (join (lit ", ") (map (fun x => quoted (lit x)) fs) ++ "]"%char :: rest)
  = Some (JArr (rev acc ++ map JStr fs), rest).
Proof.
  intros Hne. induction fs as [|x r IH]; [contradiction|].
  intros H f acc rest Hf. cbn [forallb] in H. apply andb_prop in H as [H1 H2].
  destruct f as [|f]; [cbn [length] in Hf; lia|].
  destruct r as [|y r'].
  - destruct f as [|f]; [cbn [length] in Hf; lia|].
    cbn [map join parse_elems]. rewrite parse_value_plain_string by exact H1.
    reflexivity.
  - change (join (lit ", ") (map (fun x => quoted (lit x)) (x :: y :: r')))
      with (quoted (lit x) ++ lit ", " ++ join (lit ", ") (map (fun x => quoted (lit x)) (y :: r'))).
    destruct (join_quoted_head y r') as [t Ht].
    cbn [parse_elems]. rewrite <- !app_assoc.
    destruct f as [|f]; [cbn [length] in Hf; lia|].
    rewrite parse_value_plain_string by exact H1.
    rewrite Ht. cbn -[parse_elems].
    change (parse_elems strict (S f) (JStr x :: acc) (_ :: t ++ ?X))
      with (parse_elems strict (S f) (JStr x :: acc) ((dquote :: t) ++ X)).
    rewrite <- Ht.
    rewrite (IH ltac:(discriminate) H2) by (cbn [length] in *; lia).
    cbn [rev map]. rewrite <- app_assoc. reflexivity.
Qed.

Lemma parse_array_plain (strict : bool) (fs : list string) (f : nat) (rest : list ascii) :
  forallb plain_string fs = true -> length fs < f ->
  parse_value strict (S f)
    ("["%char :: join (lit ", ") (map (fun x => quoted (lit x)) fs) ++ "]"%char :: rest)
  = Some (JArr (map JStr fs), rest).
Proof.
  intros H Hf. destruct fs as [|y r].
  - reflexivity.
  - destruct (join_quoted_head y r) as [t Ht]. rewrite Ht. cbn -[parse_elems].
    change (parse_elems strict f [] (_ :: t ++ ?X))
      with (parse_elems strict f [] ((dquote :: t) ++ X)).
    rewrite <- Ht. apply (parse_elems_plain strict (y :: r)); [discriminate | exact H | exact Hf].
Qed.

Lemma parse_member_plain (strict : bool) (f : nat) (acc : list (string * json))
  (k : string) (v : json) (rest r3 : list ascii) :
  plain_string k = true -> skip_ws rest = rest ->
  parse_value strict f rest = Some (v, r3) ->
  parse_members strict (S f) acc (quoted (lit k) ++ ":"%char :: " "%char :: rest)
  = match skip_ws r3 with
    | c4 :: r4 =>
        if Ascii.eqb c4 "}"%char then Some (JObj (dict_set acc k v), r4)
        else if Ascii.eqb c4 ","%char then
          parse_members strict f (dict_set acc k v) (skip_ws r4)
        else None
    | [] => None
    end.
Proof.
  intros Hk Hw Hv. unfold quoted. cbn [app]. rewrite <- app_assoc. cbn [app parse_members].
  rewrite Ascii.eqb_refl, (scan_string_plain strict (lit k) Hk). cbn [rev app].
  replace (string_of_list_ascii (lit k)) with k
    by (unfold lit; symmetry; apply string_of_list_ascii_of_string).
  change (skip_ws (":"%char :: " "%char :: rest)) with (":"%char :: " "%char :: rest).
  cbn -[parse_value parse_members dict_set skip_ws].
  change (skip_ws (" "%char :: rest)) with (skip_ws rest). rewrite Hw, Hv. reflexivity.
Qed.

Lemma parse_object_open (strict : bool) (f : nat) (k : string) (r : list ascii) :
  parse_value strict (S f) ("{"%char :: quoted (lit k) ++ r)
  = parse_members strict f [] (quoted (lit k) ++ r).
Proof. reflexivity. Qed.

Lemma parse_dumps_plain (strict : bool) (f : nat) (sm : string) (fs : list string) :
  plain_string sm = true -> forallb plain_string fs = true -> length fs + 4 < f ->
  parse_value strict f
    (lit "{" ++ quoted (lit "summary") ++ lit ": " ++ quoted (lit sm) ++ lit ", "
     ++ quoted (lit "facts") ++ lit ": [" ++ join (lit ", ") (map (fun x => quoted (lit x)) fs)
     ++ lit "]}")
  = Some (JObj [("summary", JStr sm); ("facts", JArr (map JStr fs))], []).
Proof.
  intros Hs Hf Hlen.
  destruct f as [|[|[|[|f]]]]; try (exfalso; lia).
  change (lit "{" ++ ?r) with ("{"%char :: r).
  change (lit ": " ++ ?r) with (":"%char :: " "%char :: r).
  change (lit ": [" ++ ?r) with (":"%char :: " "%char :: "["%char :: r).
  change (lit "]}") with ("]"%char :: "}"%char :: []).
  rewrite parse_object_open.
  erewrite parse_member_plain;
    [| reflexivity | reflexivity | apply parse_value_plain_string; exact Hs].
  change (skip_ws (lit ", " ++ ?r)) with (","%char :: " "%char :: r).
  cbn -[parse_value parse_members dict_set skip_ws].
  change (parse_members strict (S (S f)) ?a _)
    with (parse_members strict (S (S f)) a
            (quoted (lit "facts") ++ ":"%char :: " "%char :: "["%char
             :: join (lit ", ") (map (fun x => quoted (lit x)) fs)
             ++ ["]"%char; "}"%char])).
  erewrite parse_member_plain;
    [| reflexivity | reflexivity | apply parse_array_plain; [exact Hf | lia]].
  reflexivity.
Qed.

Lemma length_join_quoted (fs : list string) :
  length fs <= length (join (lit ", ") (map (fun x => quoted (lit x)) fs)).
Proof.
  induction fs as [|x r IH]; [cbn; lia|].
  destruct r as [|y r'].
  - cbn [map join]. unfold quoted. cbn [length]. lia.
  - change (join (lit ", ") (map (fun x => quoted (lit x)) (x :: y :: r')))
      with (quoted (lit x) ++ lit ", " ++ join (lit ", ") (map (fun x => quoted (lit x)) (y :: r'))).
    assert (length (lit ", ") = 2) by reflexivity.
    rewrite !length_app. cbn [length] in *. lia.
Qed.

Lemma dumps_to_dict_braces (s : Summary) :
  plain_string (summary s) = true -> forallb plain_string (facts s) = true ->
  exists m, dumps_chars true (to_dict s) = "{"%char :: m ++ ["}"%char].
Proof.
  intros Hs Hf. rewrite dumps_to_dict by assumption.
  eexists (quoted (lit "summary") ++ lit ": " ++ quoted (lit (summary s)) ++ lit ", "
     ++ quoted (lit "facts") ++ lit ": [" ++ join (lit ", ") (map (fun x => quoted (lit x)) (facts s))
     ++ ["]"%char]).
  change (lit "{" ++ ?r) with ("{"%char :: r). change (lit "]}") with (["]"%char] ++ ["}"%char]).
  rewrite <- !app_assoc. reflexivity.
Qed.

Lemma py_strip_by_braces (p : ascii -> bool) (m : list ascii) :
  p "{"%char = false -> p "}"%char = false ->
  py_strip_by p (string_of_list_ascii ("{"%char :: m ++ ["}"%char]))
  = string_of_list_ascii ("{"%char :: m ++ ["}"%char]).
Proof.
  intros H1 H2. unfold py_strip_by. rewrite list_ascii_of_string_of_list_ascii.
  cbn [drop_while]. rewrite H1. rewrite app_comm_cons, rev_unit.
  cbn [drop_while]. rewrite H2. change (rev ("}"%char :: ?x)) with (rev x ++ ["}"%char]).
  rewrite rev_involutive. reflexivity.
Qed.

Lemma find_first_byte (ws : list (list ascii)) (c : ascii) (r : list ascii) :
  forallb (fun w => match w with x :: _ => negb (Ascii.eqb x c) | [] => false end) ws = true ->
  find (fun w => starts_with w (c :: r)) ws = None.
Proof.
  intros H. apply find_none_intro. intros w Hw. rewrite forallb_forall in H.
  specialize (H w Hw). destruct w as [|x w]; [discriminate|].
  simpl. apply negb_true_iff in H. rewrite H. reflexivity.
Qed.

Lemma py_strip_braces (m : list ascii) :
  py_strip (string_of_list_ascii ("{"%char :: m ++ ["}"%char]))
  = string_of_list_ascii ("{"%char :: m ++ ["}"%char]).
Proof.
  unfold py_strip. rewrite list_ascii_of_string_of_list_ascii.
  rewrite (span_codes_no_match py_space_bytes _ ("{"%char :: m ++ ["}"%char]))
    by (apply find_first_byte; reflexivity).
  assert (Hr : rev ("{"%char :: m ++ ["}"%char]) = "}"%char :: (rev m ++ ["{"%char]))
    by (rewrite app_comm_cons, rev_unit; reflexivity).
  rewrite Hr, span_codes_no_match by (apply find_first_byte; reflexivity).
  rewrite <- Hr, rev_involutive. reflexivity.
Qed.

Lemma json_loads_dumps_plain (s : Summary) :
  plain_string (summary s) = true -> forallb plain_string (facts s) = true ->
  json_loads_chars false (dumps_chars true (to_dict s)) = Some (to_dict s).
Proof.
  intros Hs Hf. unfold json_loads_chars. rewrite dumps_to_dict by assumption.
  change (skip_ws (lit "{" ++ ?r)) with (lit "{" ++ r).
  rewrite parse_dumps_plain; [reflexivity | exact Hs | exact Hf |].
  pose proof (length_join_quoted (facts s)). rewrite !length_app.
  cbn [lit list_ascii_of_string length] in *. lia.
Qed.

Lemma summary_model_validate_to_dict (s : Summary) :
  summary_model_validate (to_dict s) = inr s.
Proof.
  destruct s as [sm fs]. unfold to_dict, summary_model_validate, validate_field. simpl.
  rewrite validate_str_items_map. reflexivity.
Qed.

(** Round trip: the text [json.dumps(summary.to_dict())] of a summary
    whose strings are printable ASCII with no quote or backslash is
    parsed back by [summary_output_parser] to the same [Summary]. *)
Theorem summary_output_parser_dumps_roundtrip (s : Summary) :
  plain_string (summary s) = true -> forallb plain_string (facts s) = true ->
  summary_output_parser (json_dumps (to_dict s)) = Ok s.
Proof.
  intros Hs Hf.
  pose proof (json_loads_dumps_plain s Hs Hf) as HL.
  pose proof (key_free_dumps s Hs Hf) as HK.
  destruct (dumps_to_dict_braces s Hs Hf) as [m Hm].
  rewrite Hm in HL, HK.
  unfold summary_output_parser, json_parse_result, json_dumps. rewrite Hm.
  rewrite py_strip_braces.
  unfold parse_json_markdown, parse_json_text. rewrite py_strip_by_braces by reflexivity.
  unfold custom_parser. rewrite list_ascii_of_string_of_list_ascii.
  rewrite (custom_parser_aux_key_free _ _ HK).
  unfold parse_partial_json. rewrite list_ascii_of_string_of_list_ascii, HL.
  rewrite summary_model_validate_to_dict. reflexivity.
Qed.

Lemma summary_output_parser_dumps_roundtrip_witness :
  plain_string (summary (mkSummary "Ada is an engineer." ["fact1"; "fact2"])) = true
  /\ forallb plain_string (facts (mkSummary "Ada is an engineer." ["fact1"; "fact2"])) = true
  /\ summary_output_parser (json_dumps (to_dict (mkSummary "Ada is an engineer." ["fact1"; "fact2"])))
     = Ok (mkSummary "Ada is an engineer." ["fact1"; "fact2"]).
Proof.
  assert (H1 : plain_string (summary (mkSummary "Ada is an engineer." ["fact1"; "fact2"])) = true)
    by reflexivity.
  assert (H2 : forallb plain_string (facts (mkSummary "Ada is an engineer." ["fact1"; "fact2"])) = true)
    by reflexivity.
  split; [exact H1|]. split; [exact H2|].
  exact (summary_output_parser_dumps_roundtrip _ H1 H2).
Defined.
